(** * kuma.core.middleware: a shallow embedding and its properties

    The middleware classes of [kuma/core/middleware.py] are translated method
    by method, for the methods the properties below are about.  Python text is represented by its bytes ([string]); a Python
    dict is a [gmap]; attribute and item assignments on the request object
    are threaded explicitly through a state-and-exception monad; functions of
    Django, brotli and of the sibling modules [kuma.core.urlresolvers],
    [kuma.core.utils] and [kuma.core.views] are Section variables. *)

From Stdlib Require Import String Ascii List Bool Arith Lia DecimalString.
From stdpp Require Import base option gmap strings list fin_maps.

Local Open Scope string_scope.
#[local] Arguments String.append !s1 s2 / : simpl nomatch.

(** ** Python results and exceptions *)

Inductive exn : Type :=
| KeyError (key : string)
| IndexError
| AttributeError (attr : string)
| Resolver404
| DisallowedRedirect
| TypeError
| OtherError (name : string).

Inductive Py (A : Type) : Type :=
| Ok (a : A)
| Raise (e : exn).

Arguments Ok {A} a.
Arguments Raise {A} e.

Definition is_ok {A} (r : Py A) : bool :=
  match r with Ok _ => true | Raise _ => false end.

(** A computation over a mutable object of type [S]: it ends with a value or
    an exception, and in both cases with the object as it was left. *)
Definition M (S A : Type) : Type := S -> Py A * S.

Definition ret {S A} (a : A) : M S A := fun s => (Ok a, s).

Definition raise {S A} (e : exn) : M S A := fun s => (Raise e, s).

Definition bind {S A B} (m : M S A) (k : A -> M S B) : M S B :=
  fun s => match m s with
           | (Ok a, s') => k a s'
           | (Raise e, s') => (Raise e, s')
           end.

Definition lift {S A} (r : Py A) : M S A := fun s => (r, s).

Definition get_state {S} : M S S := fun s => (Ok s, s).

Definition modify {S} (f : S -> S) : M S unit := fun s => (Ok tt, f s).

Declare Scope py_scope.
Delimit Scope py_scope with py.
Notation "'let*' x := m 'in' k" := (bind m (fun x => k))
  (at level 10, x name, m at level 100, k at level 200, only parsing) : py_scope.

(** [try: body finally: fin].  The [finally] block runs on the state the body
    left, whether the body returned or raised; the outcome is the body's
    unless the [finally] block raises itself. *)
Definition try_finally {S A} (body : M S A) (fin : M S unit) : M S A :=
  fun s => match body s with
           | (r, s1) => match fin s1 with
                        | (Ok _, s2) => (r, s2)
                        | (Raise e, s2) => (Raise e, s2)
                        end
           end.

(** [try: body except KeyError: handler else: orelse]. *)
Definition try_except_KeyError_else {S A B}
    (body : M S A) (handler : M S B) (orelse : A -> M S B) : M S B :=
  fun s => match body s with
           | (Ok a, s1) => orelse a s1
           | (Raise (KeyError _), s1) => handler s1
           | (Raise e, s1) => (Raise e, s1)
           end.

(** Short-circuit [a or b] and [a and b] on computations producing booleans. *)
Definition por {S} (a b : M S bool) : M S bool :=
  bind a (fun x => if x then ret true else b).

Definition pand {S} (a b : M S bool) : M S bool :=
  bind a (fun x => if x then b else ret false).

(** ** Python string operations used by the middleware *)

(** [len(s)]. *)
Definition len (s : string) : nat := String.length s.

(** [s.endswith(suffix)]: some tail of [s] is [suffix]. *)
Fixpoint endswith (s suffix : string) : bool :=
  if String.eqb s suffix then true
  else match s with
       | EmptyString => false
       | String _ s' => endswith s' suffix
       end.

(** [s[:-1]]: all but the last character; the empty string stays empty. *)
Fixpoint slice_to_minus1 (s : string) : string :=
  match s with
  | EmptyString => EmptyString
  | String c s' =>
      match s' with
      | EmptyString => EmptyString
      | String _ _ => String c (slice_to_minus1 s')
      end
  end.

(** [s.split(sep)] for a one-character separator: never the empty list. *)
Fixpoint split (sep : ascii) (s : string) : list string :=
  match s with
  | EmptyString => [EmptyString]
  | String c s' =>
      if Ascii.eqb c sep then EmptyString :: split sep s'
      else match split sep s' with
           | [] => [String c EmptyString]
           | field :: fields => String c field :: fields
           end
  end.

(** [l[i]] on a Python list: [IndexError] out of range. *)
Definition list_getitem {A} (l : list A) (i : nat) : Py A :=
  match l !! i with
  | Some x => Ok x
  | None => Raise IndexError
  end.

(** The bytes [str.isspace] accepts: space, tab, line feed, vertical tab, form
    feed and carriage return. *)
Definition isspace (c : ascii) : bool :=
  let n := nat_of_ascii c in
  ((n =? 32) || ((9 <=? n) && (n <=? 13)))%nat.

Fixpoint lstrip (s : string) : string :=
  match s with
  | EmptyString => EmptyString
  | String c s' => if isspace c then lstrip s' else s
  end.

Fixpoint rstrip (s : string) : string :=
  match s with
  | EmptyString => EmptyString
  | String c s' =>
      match rstrip s' with
      | EmptyString => if isspace c then EmptyString else String c EmptyString
      | String _ _ as r => String c r
      end
  end.

(** [s.strip()]. *)
Definition strip (s : string) : string := rstrip (lstrip s).

(** [s.lower()] on bytes: only [A-Z] change. *)
Definition lower_char (c : ascii) : ascii :=
  let n := nat_of_ascii c in
  if ((65 <=? n) && (n <=? 90))%nat then ascii_of_nat (n + 32) else c.

Fixpoint lower (s : string) : string :=
  match s with
  | EmptyString => EmptyString
  | String c s' => String (lower_char c) (lower s')
  end.

(** [str(n)] for a non-negative integer. *)
Definition str_of_nat (n : nat) : string :=
  NilEmpty.string_of_uint (Nat.to_uint n).

(** [sep.join(l)]. *)
Fixpoint join (sep : string) (l : list string) : string :=
  match l with
  | [] => EmptyString
  | [x] => x
  | x :: rest => x +:+ sep +:+ join sep rest
  end.

(** Truth value of a string: non-empty. *)
Definition str_truthy (s : string) : bool :=
  match s with EmptyString => false | String _ _ => true end.

(** ** Settings read by the middleware ([django.conf.settings]) *)

Module settings.
Record t : Type := mk {
  LANGUAGES : list (string * string);
  LANGUAGE_CODE : string;
  ENABLE_RESTRICTIONS_BY_HOST : bool;
  LEGACY_HOSTS : list string;
  SITE_URL : string
}.
End settings.

(** ** Request and response objects *)

(** [request.GET] is a dictionary from a key to the list of its values
    (Django's [MultiValueDict]); [request.META] is a plain dictionary.  The
    attribute [urlconf] may be missing, which [getattr(request, 'urlconf',
    None)] reads as [None]. *)
Record HttpRequest : Type := mkRequest {
  path : string;
  path_info : string;
  GET : gmap string (list string);
  META : gmap string string;
  urlconf : option string;
  LANGUAGE_CODE : option string
}.

Definition set_META (request : HttpRequest) (m : gmap string string) : HttpRequest :=
  mkRequest (path request) (path_info request) (GET request) m
            (urlconf request) (LANGUAGE_CODE request).

Definition set_urlconf (request : HttpRequest) (u : option string) : HttpRequest :=
  mkRequest (path request) (path_info request) (GET request) (META request)
            u (LANGUAGE_CODE request).

Definition set_path_info (request : HttpRequest) (p : string) : HttpRequest :=
  mkRequest (path request) p (GET request) (META request)
            (urlconf request) (LANGUAGE_CODE request).

Definition set_LANGUAGE_CODE (request : HttpRequest) (c : string) : HttpRequest :=
  mkRequest (path request) (path_info request) (GET request) (META request)
            (urlconf request) (Some c).

(** [request.META[key]]. *)
Definition META_getitem (key : string) : M HttpRequest string :=
  fun request =>
    match META request !! key with
    | Some v => (Ok v, request)
    | None => (Raise (KeyError key), request)
    end.

(** [request.META[key] = value]. *)
Definition META_setitem (key value : string) : M HttpRequest unit :=
  modify (fun request => set_META request (<[key := value]> (META request))).

(** A value read out of a [MultiValueDict]: the last value of the key, or the
    empty list when the key holds no value. *)
Inductive qvalue : Type :=
| QStr (s : string)
| QEmptyList.

(** [MultiValueDict.__getitem__] applied to the values stored under a key. *)
Definition last_value (values : list string) : qvalue :=
  match last values with
  | Some v => QStr v
  | None => QEmptyList
  end.

(** [request.GET.get(key)]: [None] when the key is missing or holds no value. *)
Definition QueryDict_get (d : gmap string (list string)) (key : string) : option string :=
  match d !! key with
  | Some values => last values
  | None => None
  end.

(** [request.GET.iteritems()] as a dictionary: each key with its last value. *)
Definition QueryDict_items (d : gmap string (list string)) : gmap string qvalue :=
  last_value <$> d.

(** Truth value of a dictionary: non-empty. *)
Definition dict_truthy {V} (d : gmap string V) : bool := bool_decide (d ≠ ∅).

(** The class of a response object, for [isinstance] tests. *)
Inductive ResponseClass : Type :=
| HttpResponse_class
| HttpResponseRedirect_class
| HttpResponsePermanentRedirect_class
| HttpResponseForbidden_class
| HttpResponseNotFound_class.

(** A response either holds its content or streams it; a streaming response
    has no [content] attribute. *)
Inductive Body : Type :=
| Content (data : string)
| StreamingContent (chunks : list string).

(** Headers are kept as Django keeps them: under the lower-cased name, the
    name as it was written together with the value. *)
Record HttpResponse : Type := mkResponse {
  response_class : ResponseClass;
  status_code : nat;
  _headers : gmap string (string * string);
  body : Body
}.

Definition set_headers (response : HttpResponse) (h : gmap string (string * string))
  : HttpResponse :=
  mkResponse (response_class response) (status_code response) h (body response).

(** [response.streaming]. *)
Definition streaming (response : HttpResponse) : bool :=
  match body response with
  | Content _ => false
  | StreamingContent _ => true
  end.

(** [response.content]. *)
Definition content (response : HttpResponse) : Py string :=
  match body response with
  | Content data => Ok data
  | StreamingContent _ => Raise (AttributeError "content")
  end.

(** [response.content = value]. *)
Definition set_content (response : HttpResponse) (value : string) : Py HttpResponse :=
  match body response with
  | Content _ =>
      Ok (mkResponse (response_class response) (status_code response)
                     (_headers response) (Content value))
  | StreamingContent _ => Raise (AttributeError "content")
  end.

(** [response.has_header(header)]. *)
Definition has_header (response : HttpResponse) (header : string) : bool :=
  bool_decide (is_Some (_headers response !! lower header)).

(** [response.get(header)], [None] when the header is missing. *)
Definition get_header (response : HttpResponse) (header : string) : option string :=
  snd <$> (_headers response !! lower header).

(** [response[header] = value]. *)
Definition setitem (response : HttpResponse) (header value : string) : HttpResponse :=
  set_headers response (<[lower header := (header, value)]> (_headers response)).

(** [isinstance(response, HttpResponseForbidden)]. *)
Definition is_HttpResponseForbidden (response : HttpResponse) : bool :=
  match response_class response with
  | HttpResponseForbidden_class => true
  | _ => false
  end.

(** A fresh response of a class, with the default [Content-Type]. *)
Definition new_response (cls : ResponseClass) (status : nat) (data : string)
  : HttpResponse :=
  mkResponse cls status
             {[ "content-type" := ("Content-Type", "text/html; charset=utf-8") ]}
             (Content data).

Section Redirects.

(** [django.utils.encoding.iri_to_uri]. *)
Variable iri_to_uri : string -> string.
(** [urlparse(force_text(url)).scheme]: the scheme of a URL, empty when it
    has none. *)
Variable urlparse_scheme : string -> string.

(** A temporary redirect once built: status 302, the target in [Location]. *)
Definition temporary_redirect (redirect_to : string) : HttpResponse :=
  setitem (new_response HttpResponseRedirect_class 302 "")
          "Location" (iri_to_uri redirect_to).

(** A permanent redirect once built: status 301. *)
Definition permanent_redirect (redirect_to : string) : HttpResponse :=
  setitem (new_response HttpResponsePermanentRedirect_class 301 "")
          "Location" (iri_to_uri redirect_to).

(** [HttpResponseRedirectBase.allowed_schemes]. *)
Definition allowed_schemes : list string := ["http"; "https"; "ftp"].

(** The check that opens [HttpResponseRedirectBase.__init__]: the target has
    no scheme, or one of the allowed ones. *)
Definition redirect_allowed (redirect_to : string) : bool :=
  negb (str_truthy (urlparse_scheme redirect_to)
        && negb (bool_decide (urlparse_scheme redirect_to ∈ allowed_schemes))).

(** [HttpResponseRedirect(redirect_to)]: [DisallowedRedirect] for a target
    with another scheme. *)
Definition HttpResponseRedirect (redirect_to : string) : Py HttpResponse :=
  if str_truthy (urlparse_scheme redirect_to)
     && negb (bool_decide (urlparse_scheme redirect_to ∈ allowed_schemes))
  then Raise DisallowedRedirect
  else Ok (temporary_redirect redirect_to).

(** [HttpResponsePermanentRedirect(redirect_to)]. *)
Definition HttpResponsePermanentRedirect (redirect_to : string) : Py HttpResponse :=
  if str_truthy (urlparse_scheme redirect_to)
     && negb (bool_decide (urlparse_scheme redirect_to ∈ allowed_schemes))
  then Raise DisallowedRedirect
  else Ok (permanent_redirect redirect_to).

End Redirects.

Section VaryHeaders.

(** [cc_delim_re.split], the split of a header value at its commas. *)
Variable cc_delim_split : string -> list string.

(** [django.utils.cache.patch_vary_headers(response, newheaders)]. *)
Definition patch_vary_headers (response : HttpResponse) (newheaders : list string)
  : HttpResponse :=
  let vary_headers :=
    match get_header response "Vary" with
    | Some v => cc_delim_split v
    | None => []
    end in
  let existing_headers := lower <$> vary_headers in
  let additional_headers :=
    filter (fun newheader => lower newheader ∉ existing_headers) newheaders in
  setitem response "Vary" (join ", " (vary_headers ++ additional_headers)%list).

End VaryHeaders.

(** ** The middleware classes *)

Local Open Scope py_scope.

Module LocaleURLMiddleware.

(** The attributes of a [Prefixer] that the middleware reads and writes. *)
Record Prefixer : Type := mkPrefixer {
  locale : string;
  shortened_path : string
}.

(** What [process_request] can change: the request, the thread-local URL
    prefixer ([set_url_prefixer]) and the active translation
    ([translation.activate]). *)
Record World : Type := mkWorld {
  request : HttpRequest;
  url_prefixer : option Prefixer;
  active_translation : option string
}.

Section LocaleURLMiddleware.

Variable conf : settings.t.
Variable iri_to_uri : string -> string.
Variable urlparse_scheme : string -> string.
(** [Prefixer(request)] and [prefixer.fix(path)] of [kuma.core.urlresolvers];
    [fix] reads the prefixer's locale and its request. *)
Variable Prefixer_init : HttpRequest -> Prefixer.
Variable Prefixer_fix : HttpRequest -> Prefixer -> string -> string.
(** [split_path] of [kuma.core.urlresolvers]. *)
Variable split_path : string -> string * string.
(** The call [urlparams(url, **query)] of [kuma.core.utils], with the
    dictionary unpacked into keyword arguments: it raises [TypeError] when a
    key names a parameter the call already binds, and whatever the function
    itself raises. *)
Variable urlparams : string -> gmap string qvalue -> Py string.
(** [urllib.quote(s.encode('utf-8'))]. *)
Variable quote_utf8 : string -> string.

(** [smart_str(k)]: text is held as its bytes, which [smart_str] returns
    as they are. *)
Definition smart_str (k : string) : string := k.

(** [dict(pairs)]. *)
Definition dict (pairs : list (string * string)) : gmap string string :=
  list_to_map (reverse pairs).

(** [lang in dict(settings.LANGUAGES)], for the result of [GET.get]. *)
Definition lang_in_LANGUAGES (lang : option string) : bool :=
  match lang with
  | Some l => bool_decide (is_Some (dict (settings.LANGUAGES conf) !! l))
  | None => false
  end.

(** [dict((smart_str(k), v) for k, v in request.GET.iteritems() if k != 'lang')]. *)
Definition query_without_lang (get : gmap string (list string)) : gmap string qvalue :=
  kmap smart_str (filter (fun kv => kv.1 ≠ "lang") (QueryDict_items get)).

(** [a or b] on strings. *)
Definition str_or (a b : string) : string := if str_truthy a then a else b.

Definition set_url_prefixer (p : option Prefixer) : M World unit :=
  modify (fun w => mkWorld (request w) p (active_translation w)).

Definition translation_activate (language : string) : M World unit :=
  modify (fun w => mkWorld (request w) (url_prefixer w) (Some language)).

Definition update_request (f : HttpRequest -> HttpRequest) : M World unit :=
  modify (fun w => mkWorld (f (request w)) (url_prefixer w) (active_translation w)).

(** The branch taken when [lang] names a configured language.  The prefixer
    handed to [set_url_prefixer] is the object whose locale is blanked here,
    so the thread-local prefixer is blanked with it. *)
Definition redirect_without_lang (req : HttpRequest) (prefixer : Prefixer)
  : M World (option HttpResponse) :=
  let prefixer := mkPrefixer "" (shortened_path prefixer) in
  let* _ := set_url_prefixer (Some prefixer) in
  let new_path := Prefixer_fix req prefixer (shortened_path prefixer) in
  let query := query_without_lang (GET req) in
  let* url := lift (urlparams new_path query) in
  let* response := lift (HttpResponseRedirect iri_to_uri urlparse_scheme url) in
  ret (Some response).

(** The rest of [process_request], from [if full_path != request.path]. *)
Definition locale_prefix (req : HttpRequest) (prefixer : Prefixer) (full_path : string)
  : M World (option HttpResponse) :=
  if negb (String.eqb full_path (path req)) then
    let query_string := default "" (META req !! "QUERY_STRING") in
    let full_path := quote_utf8 full_path in
    let full_path :=
      if str_truthy query_string then full_path +:+ "?" +:+ query_string
      else full_path in
    let* response :=
      lift (HttpResponseRedirect iri_to_uri urlparse_scheme full_path) in
    let old_locale := locale prefixer in
    let new_locale := fst (split_path full_path) in
    let response :=
      if negb (String.eqb old_locale new_locale)
      then setitem response "Vary" "Accept-Language"
      else response in
    ret (Some response)
  else
    let* _ := update_request (fun r =>
                set_path_info r ("/" +:+ shortened_path prefixer)) in
    let* _ := update_request (fun r =>
                set_LANGUAGE_CODE r
                  (str_or (locale prefixer) (settings.LANGUAGE_CODE conf))) in
    let* _ := translation_activate
                (str_or (locale prefixer) (settings.LANGUAGE_CODE conf)) in
    ret None.

Definition process_request : M World (option HttpResponse) :=
  let* w := get_state in
  let req := request w in
  let prefixer := Prefixer_init req in
  let* _ := set_url_prefixer (Some prefixer) in
  let full_path := Prefixer_fix req prefixer (shortened_path prefixer) in
  let lang := QueryDict_get (GET req) "lang" in
  if lang_in_LANGUAGES lang then redirect_without_lang req prefixer
  else locale_prefix req prefixer full_path.

(** [process_response]: unset the thread-local prefixer. *)
Definition process_response (response : HttpResponse) : M World HttpResponse :=
  let* _ := set_url_prefixer None in
  ret response.

(** [process_exception]: unset the thread-local prefixer, and handle nothing. *)
Definition process_exception : M World (option HttpResponse) :=
  let* _ := set_url_prefixer None in
  ret None.

End LocaleURLMiddleware.
End LocaleURLMiddleware.

Module Forbidden403Middleware.
Section Forbidden403Middleware.

(** [handler403] of [kuma.core.views]. *)
Variable handler403 : HttpRequest -> HttpResponse.

Definition process_response (request : HttpRequest) (response : HttpResponse)
  : HttpResponse :=
  if is_HttpResponseForbidden response then handler403 request
  else response.

End Forbidden403Middleware.
End Forbidden403Middleware.

Section RemoveSlash.

(** [urlresolvers.resolve(path, urlconf)]: returns a match or raises
    [Resolver404]. *)
Variable resolve : string -> option string -> Py unit.
Variable iri_to_uri : string -> string.

Definition is_valid_path (request : HttpRequest) (path : string) : Py bool :=
  let urlconf := urlconf request in
  match resolve path urlconf with
  | Ok _ => Ok true
  | Raise Resolver404 => Ok false
  | Raise e => Raise e
  end.

(** The context manager [safe_query_string(request)] around a [with] body. *)
Definition safe_query_string {A} (body : M HttpRequest A) : M HttpRequest A :=
  let* qs := META_getitem "QUERY_STRING" in
  try_finally
    (let* _ := META_setitem "QUERY_STRING" (iri_to_uri qs) in body)
    (META_setitem "QUERY_STRING" qs).

End RemoveSlash.

Module RemoveSlashMiddleware.
Section RemoveSlashMiddleware.

Variable resolve : string -> option string -> Py unit.
Variable iri_to_uri : string -> string.
Variable urlparse_scheme : string -> string.

(** The condition of the [if]: four conjuncts, evaluated left to right. *)
Definition should_remove_slash (request : HttpRequest) (response : HttpResponse)
  : M HttpRequest bool :=
  pand (ret (status_code response =? 404)%nat)
  (pand (ret (endswith (path_info request) "/"))
  (pand (let* valid := lift (is_valid_path resolve request (path_info request)) in
         ret (negb valid))
        (lift (is_valid_path resolve request (slice_to_minus1 (path_info request)))))).

Definition process_response (response : HttpResponse) : M HttpRequest HttpResponse :=
  let* request := get_state in
  let* cond := should_remove_slash request response in
  if cond then
    let newurl := slice_to_minus1 (path request) in
    let* newurl :=
      (if dict_truthy (GET request) then
         safe_query_string iri_to_uri
           (let* qs := META_getitem "QUERY_STRING" in ret (newurl +:+ "?" +:+ qs))
       else ret newurl) in
    lift (HttpResponsePermanentRedirect iri_to_uri urlparse_scheme newurl)
  else ret response.

End RemoveSlashMiddleware.
End RemoveSlashMiddleware.

Module SetRemoteAddrFromForwardedFor.

Definition process_request : M HttpRequest (option HttpResponse) :=
  try_except_KeyError_else
    (META_getitem "HTTP_X_FORWARDED_FOR")
    (ret None)
    (fun forwarded_for =>
       let* first := lift (list_getitem (split "," forwarded_for) 0) in
       let forwarded_for := strip first in
       let* _ := META_setitem "REMOTE_ADDR" forwarded_for in
       ret None).

End SetRemoteAddrFromForwardedFor.

Module RestrictedEndpointsMiddleware.
Section RestrictedEndpointsMiddleware.

Variable conf : settings.t.
(** [is_untrusted(request)] of [kuma.core.utils]; it reads the request's
    host, which Django refuses with an exception when it is not allowed. *)
Variable is_untrusted : HttpRequest -> Py bool.

Definition process_request : M HttpRequest (option HttpResponse) :=
  let* request := get_state in
  let* restricted := pand (ret (settings.ENABLE_RESTRICTIONS_BY_HOST conf))
                          (lift (is_untrusted request)) in
  if restricted then
    let* _ := modify (fun r => set_urlconf r (Some "kuma.urls_untrusted")) in
    ret None
  else ret None.

End RestrictedEndpointsMiddleware.
End RestrictedEndpointsMiddleware.

Module RestrictedWhiteNoiseMiddleware.
Section RestrictedWhiteNoiseMiddleware.

Variable conf : settings.t.
Variable is_untrusted : HttpRequest -> Py bool.
(** [WhiteNoiseMiddleware.process_request], the method of the parent class:
    the static file the request asks for, or [None]. *)
Variable super_process_request : HttpRequest -> option HttpResponse.

(** The requests handed to the parent class, in order. *)
Definition super_calls : Type := list HttpRequest.

Definition call_super (request : HttpRequest) : M super_calls (option HttpResponse) :=
  fun calls => (Ok (super_process_request request), (calls ++ [request])%list).

Definition process_request (request : HttpRequest)
  : M super_calls (option HttpResponse) :=
  let* restricted := pand (ret (settings.ENABLE_RESTRICTIONS_BY_HOST conf))
                          (lift (is_untrusted request)) in
  if restricted then ret None
  else call_super request.

End RestrictedWhiteNoiseMiddleware.
End RestrictedWhiteNoiseMiddleware.

Module LegacyDomainRedirectsMiddleware.
Section LegacyDomainRedirectsMiddleware.

Variable conf : settings.t.
Variable iri_to_uri : string -> string.
Variable urlparse_scheme : string -> string.
(** [request.get_host()] and [request.get_full_path()]. *)
Variable get_host : HttpRequest -> Py string.
Variable get_full_path : HttpRequest -> string.
(** [urlparse.urljoin]. *)
Variable urljoin : string -> string -> string.

Definition process_request : M HttpRequest (option HttpResponse) :=
  let* request := get_state in
  let* host := lift (get_host request) in
  if bool_decide (host ∈ settings.LEGACY_HOSTS conf) then
    let* response :=
      lift (HttpResponsePermanentRedirect iri_to_uri urlparse_scheme
              (urljoin (settings.SITE_URL conf) (get_full_path request))) in
    ret (Some response)
  else ret None.

End LegacyDomainRedirectsMiddleware.
End LegacyDomainRedirectsMiddleware.

Module GZipMiddleware.
Section GZipMiddleware.

(** [django.middleware.gzip.GZipMiddleware.process_response], the method of
    the parent class. *)
Variable super_process_response : HttpRequest -> HttpResponse -> HttpResponse.

Definition process_response (request : HttpRequest) (response : HttpResponse)
  : HttpResponse :=
  let original_etag := get_header response "etag" in
  let response_out := super_process_response request response in
  match original_etag with
  | Some etag =>
      if has_header response_out "etag" then setitem response_out "etag" etag
      else response_out
  | None => response_out
  end.

End GZipMiddleware.
End GZipMiddleware.

Module BrotliMiddleware.
Section BrotliMiddleware.

(** [brotli.compress(data, quality=q)]. *)
Variable brotli_compress : string -> nat -> string.
Variable cc_delim_split : string -> list string.

Definition MIN_LEN_RESPONSE_TO_PROCESS : nat := 200.

(** [\w] on bytes: a letter, a digit or the underscore. *)
Definition is_word_char (c : ascii) : bool :=
  let n := nat_of_ascii c in
  (((48 <=? n) && (n <=? 57)) || ((65 <=? n) && (n <=? 90)) ||
   ((97 <=? n) && (n <=? 122)) || (n =? 95))%nat.

(** Does [\bbr\b] match at the start of [s], the character before it being a
    word character or not? *)
Definition match_br_at (prev_is_word : bool) (s : string) : bool :=
  match s with
  | String c1 (String c2 rest) =>
      negb prev_is_word && Ascii.eqb c1 "b" && Ascii.eqb c2 "r" &&
      negb (match rest with
            | EmptyString => false
            | String c3 _ => is_word_char c3
            end)
  | _ => false
  end.

(** [RE_ACCEPT_ENCODING_BROTLI.search(s)] as a truth value: the pattern is
    tried at every position, left to right. *)
Fixpoint search_from (prev_is_word : bool) (s : string) : bool :=
  match_br_at prev_is_word s ||
  match s with
  | EmptyString => false
  | String c s' => search_from (is_word_char c) s'
  end.

Definition RE_ACCEPT_ENCODING_BROTLI_search (s : string) : bool :=
  search_from false s.

Definition _accepts_brotli_encoding (request : HttpRequest) : bool :=
  RE_ACCEPT_ENCODING_BROTLI_search
    (default "" (META request !! "HTTP_ACCEPT_ENCODING")).

(** The calls made to [brotli.compress], in order: the data and the quality. *)
Definition compress_log : Type := list (string * nat).

Definition compress (data : string) (quality : nat) : M compress_log string :=
  fun log => (Ok (brotli_compress data quality), (log ++ [(data, quality)])%list).

(** The condition of the first [if]: four disjuncts, evaluated left to right. *)
Definition should_skip (request : HttpRequest) (response : HttpResponse)
  : M compress_log bool :=
  por (ret (streaming response))
  (por (ret (has_header response "Content-Encoding"))
  (por (ret (negb (_accepts_brotli_encoding request)))
       (let* c := lift (content response) in
        ret (len c <? MIN_LEN_RESPONSE_TO_PROCESS)%nat))).

Definition process_response (request : HttpRequest) (response : HttpResponse)
  : M compress_log HttpResponse :=
  let* skip := should_skip request response in
  if skip then ret response
  else
    let* c := lift (content response) in
    let* compressed_content := compress c 5 in
    let* c := lift (content response) in
    if (len c <=? len compressed_content)%nat then ret response
    else
      let* response := lift (set_content response compressed_content) in
      let response := patch_vary_headers cc_delim_split response ["Accept-Encoding"] in
      let response :=
        setitem response "Content-Length" (str_of_nat (len compressed_content)) in
      let response := setitem response "Content-Encoding" "br" in
      ret response.

End BrotliMiddleware.
End BrotliMiddleware.

(** ** Vocabulary of the statements *)

(** What [s.split(',')[0]] is: the part of [s] before its first [sep]. *)
Definition is_first_field (sep : ascii) (s field : string) : Prop :=
  exists rest,
    s = field +:+ rest /\
    (forall c, In c (list_ascii_of_string field) -> c <> sep) /\
    (rest = "" \/ exists rest', rest = String sep rest').

(** The first comma-separated entry of a header value. *)
Definition first_entry (v : string) : string := default "" (split "," v !! 0).

Definition first_char_is (P : ascii -> bool) (s : string) : bool :=
  match s with EmptyString => false | String c _ => P c end.

Fixpoint last_char_is (P : ascii -> bool) (s : string) : bool :=
  match s with
  | EmptyString => false
  | String c s' =>
      match s' with
      | EmptyString => P c
      | String _ _ => last_char_is P s'
      end
  end.

Fixpoint all_chars (P : ascii -> bool) (s : string) : bool :=
  match s with
  | EmptyString => true
  | String c s' => P c && all_chars P s'
  end.

(** What [s.strip()] is: [s] without its leading and trailing whitespace. *)
Definition is_stripped (s t : string) : Prop :=
  exists l r,
    s = l +:+ t +:+ r /\
    all_chars isspace l = true /\ all_chars isspace r = true /\
    first_char_is isspace t = false /\ last_char_is isspace t = false.


(** The request with its query string replaced, as the body of the [with]
    statement sees it. *)
Definition with_query_string (request : HttpRequest) (qs : string) : HttpRequest :=
  set_META request (<["QUERY_STRING" := qs]> (META request)).

Section RemoveSlash_vocabulary.

Variable resolve : string -> option string -> Py unit.
Variable iri_to_uri : string -> string.

(** The four conditions under which the trailing slash is removed. *)
Definition slash_conditions (request : HttpRequest) (response : HttpResponse) : Prop :=
  status_code response = 404 /\
  endswith (path_info request) "/" = true /\
  is_valid_path resolve request (path_info request) = Ok false /\
  is_valid_path resolve request (slice_to_minus1 (path_info request)) = Ok true.

(** The same four conditions, read off the resolver itself: [path_info] does
    not resolve, and [path_info] without its last character does. *)
Definition slash_redirect_conditions (request : HttpRequest) (response : HttpResponse)
  : Prop :=
  status_code response = 404 /\
  endswith (path_info request) "/" = true /\
  resolve (path_info request) (urlconf request) = Raise Resolver404 /\
  resolve (slice_to_minus1 (path_info request)) (urlconf request) = Ok tt.

(** The redirect target: [request.path] without its last character, and the
    encoded query string after a question mark when the request has query
    parameters. *)
Definition slash_removed_url (request : HttpRequest) : string :=
  if bool_decide (GET request = ∅) then slice_to_minus1 (path request)
  else slice_to_minus1 (path request) +:+ "?" +:+
       iri_to_uri (default "" (META request !! "QUERY_STRING")).

End RemoveSlash_vocabulary.

Section Brotli_vocabulary.

(** A string contains the token [br] as a whole word: an occurrence of [br]
    with no word character right before it and none right after it. *)
Definition contains_br_word (s : string) : Prop :=
  exists pre post,
    s = pre +:+ "br" +:+ post /\
    last_char_is BrotliMiddleware.is_word_char pre = false /\
    first_char_is BrotliMiddleware.is_word_char post = false.

(** The number of bytes a response carries. *)
Definition content_length (response : HttpResponse) : nat :=
  match body response with
  | Content data => len data
  | StreamingContent chunks => sum_list (len <$> chunks)
  end.

(** The [Vary] header lists [name], in whatever case. *)
Definition vary_includes (response : HttpResponse) (name : string) : Prop :=
  exists names,
    get_header response "Vary" = Some (join ", " names) /\
    exists n, n ∈ names /\ lower n = lower name.

(** The entries of the [Vary] header of a response, as [cc_delim_split] finds
    them; none for a response without the header. *)
Definition vary_entries (cc_delim_split : string -> list string)
    (response : HttpResponse) : list string :=
  match get_header response "Vary" with
  | Some v => cc_delim_split v
  | None => []
  end.

(** The headers of [response'] other than those named are the headers of
    [response]. *)
Definition same_headers_but (names : list string) (response response' : HttpResponse)
  : Prop :=
  forall header, lower header ∉ names ->
    get_header response' header = get_header response header.

End Brotli_vocabulary.


(** [smart_str] sends different keys to different keys. *)
#[local] Instance smart_str_inj : Inj (=) (=) LocaleURLMiddleware.smart_str.
Proof. intros k1 k2 H. exact H. Qed.

Section LocaleURL_vocabulary.

Variable iri_to_uri : string -> string.
Variable Prefixer_init : HttpRequest -> LocaleURLMiddleware.Prefixer.
Variable Prefixer_fix :
  HttpRequest -> LocaleURLMiddleware.Prefixer -> string -> string.
Variable urlparams : string -> gmap string qvalue -> Py string.
Variable quote_utf8 : string -> string.

(** The prefixer of a request with its locale blanked. *)
Definition blank_prefixer (req : HttpRequest) : LocaleURLMiddleware.Prefixer :=
  LocaleURLMiddleware.mkPrefixer ""
    (LocaleURLMiddleware.shortened_path (Prefixer_init req)).



(** The path with its locale prefix, as the prefixer of the request fixes
    it. *)
Definition prefixed_path (req : HttpRequest) : string :=
  Prefixer_fix req (Prefixer_init req)
    (LocaleURLMiddleware.shortened_path (Prefixer_init req)).

(** Where a request whose path lacks its locale prefix is sent: the quoted
    prefixed path, with the query string as the request has it. *)
Definition prefix_redirect_target (req : HttpRequest) : string :=
  if str_truthy (default "" (META req !! "QUERY_STRING"))
  then quote_utf8 (prefixed_path req) +:+ "?" +:+
       default "" (META req !! "QUERY_STRING")
  else quote_utf8 (prefixed_path req).

End LocaleURL_vocabulary.

(** ** Stand-ins for the instances *)

(** A stand-in for the parent class, which marks the [ETag] of the response it
    compresses as Django's [GZipMiddleware] does. *)
Definition gzip_marking_etag (request : HttpRequest) (response : HttpResponse)
  : HttpResponse :=
  match get_header response "ETag" with
  | Some etag => setitem response "ETag" (etag +:+ ";gzip")
  | None => response
  end.

(** The characters of a URL scheme: letters, digits, [+], [-] and [.]. *)
Definition is_scheme_char (c : ascii) : bool :=
  let n := nat_of_ascii c in
  (((48 <=? n) && (n <=? 57)) || ((65 <=? n) && (n <=? 90)) ||
   ((97 <=? n) && (n <=? 122)) || (n =? 43) || (n =? 45) || (n =? 46))%nat.

(** The scheme of a URL: what stands before its first colon, when that is a
    non-empty run of scheme characters. *)
Definition scheme_of (url : string) : string :=
  match split ":" url with
  | first :: _ :: _ =>
      if str_truthy first && all_chars is_scheme_char first then lower first
      else ""
  | _ => ""
  end.

(** The request for [/en-US/docs/?&]: a query string that holds no
    parameter. *)
Definition ampersand_request : HttpRequest :=
  mkRequest "/en-US/docs/" "/docs/" ∅ {[ "QUERY_STRING" := "&" ]} None None.

(** A resolver that knows the single path [/docs]. *)
Definition resolve_docs (path : string) (urlconf : option string) : Py unit :=
  if String.eqb path "/docs" then Ok tt else Raise Resolver404.

(** An encoder that writes a space as [%20] and keeps every other byte. *)
Fixpoint encode_spaces (s : string) : string :=
  match s with
  | EmptyString => EmptyString
  | String c s' =>
      if Ascii.eqb c " " then "%20" +:+ encode_spaces s'
      else String c (encode_spaces s')
  end.

(** A request for [/en-US/docs/?q=brotli middleware]. *)
Definition docs_slash_request : HttpRequest :=
  mkRequest "/en-US/docs/" "/docs/"
    {[ "q" := ["brotli middleware"] ]}
    {[ "QUERY_STRING" := "q=brotli middleware";
       "HTTP_HOST" := "developer.mozilla.com";
       "HTTP_ACCEPT_ENCODING" := "gzip, deflate, br" ]}
    None None.

(** The host of a request, read from its [Host] header. *)
Definition host_header (request : HttpRequest) : Py string :=
  match META request !! "HTTP_HOST" with
  | Some host => Ok host
  | None => Raise (KeyError "HTTP_HOST")
  end.

(** The full path of a request: its encoded path, and its encoded query
    string after a question mark when it has one. *)
Definition full_path_of (request : HttpRequest) : string :=
  if str_truthy (default "" (META request !! "QUERY_STRING"))
  then encode_spaces (path request) +:+ "?" +:+
       encode_spaces (default "" (META request !! "QUERY_STRING"))
  else encode_spaces (path request).

(** Joining a site and a URL that is an absolute path or has a scheme of its
    own: the latter stands for itself. *)
Definition join_site (base url : string) : string :=
  if str_truthy (scheme_of url) then url else base +:+ url.

Definition mdn_settings : settings.t :=
  settings.mk [("en-US", "English (US)"); ("fr", "French")] "en-US" true
    ["developer.mozilla.com"; "developer-new.mozilla.org"]
    "https://developer.mozilla.org".

(** A host check against the attachment domain. *)
Definition untrusted_host (request : HttpRequest) : Py bool :=
  match host_header request with
  | Ok host => Ok (String.eqb host "mdn.mozillademos.org")
  | Raise e => Raise e
  end.

Definition attachment_request : HttpRequest :=
  mkRequest "/files/1/a.png" "/files/1/a.png" ∅
    {[ "HTTP_HOST" := "mdn.mozillademos.org" ]} None None.

(** [n] copies of a character. *)
Fixpoint replicate_char (n : nat) (c : ascii) : string :=
  match n with
  | O => EmptyString
  | S n' => String c (replicate_char n' c)
  end.

(** A compressor that writes a run of one byte as the byte and its length. *)
Definition run_length (data : string) (quality : nat) : string :=
  match data with
  | EmptyString => EmptyString
  | String c _ => String c (str_of_nat (len data))
  end.

(** A comma split that strips each field. *)
Definition split_commas (v : string) : list string := strip <$> split "," v.

(** A page of 300 bytes that varies on the cookie. *)
Definition long_page : HttpResponse :=
  setitem (new_response HttpResponse_class 200 (replicate_char 300 "a"))
          "Vary" "Cookie".

(** The page above as the middleware returns it for a client that accepts
    [br]. *)
Definition compressed_long_page : HttpResponse :=
  setitem
    (setitem
       (setitem (new_response HttpResponse_class 200 "a300")
                "Vary" "Cookie, Accept-Encoding")
       "Content-Length" "4")
    "Content-Encoding" "br".

(** A prefixer that takes the path after its first slash as the shortened
    path, and fixes a path by prefixing its locale, [en-US] by default. *)
Definition simple_prefixer (req : HttpRequest) : LocaleURLMiddleware.Prefixer :=
  LocaleURLMiddleware.mkPrefixer ""
    match path_info req with
    | String "/" rest => rest
    | other => other
    end.

Definition simple_fix (req : HttpRequest) (p : LocaleURLMiddleware.Prefixer)
    (path : string) : string :=
  "/" +:+ (if str_truthy (LocaleURLMiddleware.locale p)
           then LocaleURLMiddleware.locale p else "en-US") +:+ "/" +:+ path.

Definition simple_split_path (path : string) : string * string :=
  match split "/" path with
  | _ :: first :: rest => (first, join "/" rest)
  | _ => ("", path)
  end.

(** A URL with its query parameters written after a question mark, as a
    function [f(url_, **query)] called with a dictionary: a key [url_] is a
    second value for the first parameter. *)
Definition simple_urlparams (url : string) (query : gmap string qvalue)
  : Py string :=
  if bool_decide (is_Some (query !! "url_")) then Raise TypeError
  else if bool_decide (query = ∅) then Ok url
  else Ok (url +:+ "?" +:+
           join "&" ((fun kv => kv.1 +:+ "=" +:+
                                match kv.2 with QStr v => v | QEmptyList => "" end)
                     <$> map_to_list query)).


(** A resolver whose URL configuration cannot be loaded. *)
Definition resolve_broken (path : string) (urlconf : option string) : Py unit :=
  Raise (OtherError "ImproperlyConfigured").

(** The request for [/en-US/docs/?q=...] built by hand, with its parameters in
    [GET] and no [QUERY_STRING] in [META]. *)
Definition handmade_request : HttpRequest :=
  mkRequest "/en-US/docs/" "/docs/" {[ "q" := ["brotli middleware"] ]} ∅
    None None.

(** A request for [/en-US/docs], behind two proxies. *)
Definition proxied_request : HttpRequest :=
  mkRequest "/en-US/docs" "/docs" ∅
    {[ "HTTP_X_FORWARDED_FOR" := " 203.0.113.7 , 10.0.0.1";
       "REMOTE_ADDR" := "127.0.0.1";
       "QUERY_STRING" := "" ]}
    None None.

(** A request that lists [br] with a zero quality. *)
Definition refusing_request : HttpRequest :=
  mkRequest "/en-US/docs" "/docs" ∅
    {[ "HTTP_ACCEPT_ENCODING" := "gzip, br;q=0" ]} None None.

(** A request for [/en-US/docs?page=2], already under its locale. *)
Definition localized_request : HttpRequest :=
  mkRequest "/en-US/docs" "/docs"
    {[ "page" := ["2"] ]}
    {[ "QUERY_STRING" := "page=2" ]} None None.

(** A request for [/docs?page=2], not yet under a locale. *)
Definition unlocalized_request : HttpRequest :=
  mkRequest "/docs" "/docs"
    {[ "page" := ["2"] ]}
    {[ "QUERY_STRING" := "page=2" ]} None None.

(** A server of static files that knows one file. *)
Definition serve_static (request : HttpRequest) : option HttpResponse :=
  if String.eqb (path_info request) "/files/1/a.png"
  then Some (new_response HttpResponse_class 200 "PNG")
  else None.

(** * Properties *)

(** ** String operations *)

Lemma endswith_cons (c : ascii) (s suffix : string) :
  endswith (String c s) suffix =
  if String.eqb (String c s) suffix then true else endswith s suffix.
Proof. reflexivity. Qed.

Lemma endswith_append (p suffix : string) : endswith (p +:+ suffix) suffix = true.
Proof.
  induction p as [|c p IH].
  - destruct suffix as [|d suffix]; simpl; [reflexivity|].
    now rewrite Ascii.eqb_refl, String.eqb_refl.
  - change (String c p +:+ suffix) with (String c (p +:+ suffix)).
    rewrite endswith_cons.
    destruct (String.eqb (String c (p +:+ suffix)) suffix); [reflexivity | exact IH].
Qed.

Lemma endswith_inv (s suffix : string) :
  endswith s suffix = true -> exists p, s = p +:+ suffix.
Proof.
  induction s as [|c s IH].
  - destruct suffix; simpl; [intros _; now exists "" | discriminate].
  - rewrite endswith_cons.
    destruct (String.eqb_spec (String c s) suffix) as [<-|].
    + intros _. now exists "".
    + intros H. destruct (IH H) as [p ->]. now exists (String c p).
Qed.

Lemma slice_to_minus1_snoc (p : string) (c : ascii) :
  slice_to_minus1 (p +:+ String c "") = p.
Proof.
  induction p as [|d p IH]; simpl; [reflexivity|].
  rewrite IH. destruct p; reflexivity.
Qed.

(** A path that ends with a slash is its [[:-1]] slice followed by the slash. *)
Lemma endswith_slash_slice (s : string) :
  endswith s "/" = true -> s = slice_to_minus1 s +:+ "/".
Proof.
  intros H. destruct (endswith_inv _ _ H) as [p ->].
  now rewrite slice_to_minus1_snoc.
Qed.

Lemma split_nonempty (sep : ascii) (s : string) : split sep s <> [].
Proof.
  induction s as [|c s IH]; simpl; [discriminate|].
  destruct (Ascii.eqb c sep); [discriminate|].
  destruct (split sep s); discriminate.
Qed.

Lemma split_first_field (sep : ascii) (s : string) :
  exists field, split sep s !! 0 = Some field /\ is_first_field sep s field.
Proof.
  induction s as [|c s IH]; simpl.
  - exists "". split; [reflexivity|]. exists "".
    repeat split; auto; intros ? [].
  - destruct (Ascii.eqb_spec c sep) as [->|Hne].
    + exists "". split; [reflexivity|]. exists (String sep s).
      repeat split; eauto; intros ? [].
    + destruct IH as (field & Hf & rest & Hs & Hno & Hrest).
      destruct (split sep s) as [|f fs] eqn:E; [discriminate|].
      simpl in Hf. injection Hf as ->.
      exists (String c field). split; [reflexivity|].
      exists rest. split; [simpl; now rewrite <- Hs|]. split; [|exact Hrest].
      intros d [<-|Hd]; [exact Hne | now apply Hno].
Qed.

Lemma lstrip_spec (s : string) :
  exists l, s = l +:+ lstrip s /\ all_chars isspace l = true /\
            first_char_is isspace (lstrip s) = false.
Proof.
  induction s as [|c s IH]; simpl.
  - now exists "".
  - destruct (isspace c) eqn:E.
    + destruct IH as (l & Hs & Hl & Hf). exists (String c l).
      simpl. rewrite E, Hl, <- Hs. auto.
    + exists "". simpl. auto.
Qed.

Lemma rstrip_spec (s : string) :
  exists r, s = rstrip s +:+ r /\ all_chars isspace r = true /\
            last_char_is isspace (rstrip s) = false.
Proof.
  induction s as [|c s IH]; simpl.
  - now exists "".
  - destruct IH as (r & Hs & Hr & Hl).
    destruct (rstrip s) as [|d t] eqn:E.
    + simpl in Hs. subst r. destruct (isspace c) eqn:Ec.
      * exists (String c s). simpl. rewrite Ec, Hr. auto.
      * exists s. simpl. rewrite Ec. auto.
    + exists r. simpl in *. rewrite <- Hs. auto.
Qed.

Lemma rstrip_first_char (s : string) :
  first_char_is isspace s = false -> first_char_is isspace (rstrip s) = false.
Proof.
  destruct s as [|c s]; simpl; [auto|].
  intros Hc. destruct (rstrip s); [rewrite Hc|]; simpl; auto.
Qed.

Lemma strip_spec (s : string) : is_stripped s (strip s).
Proof.
  unfold strip, is_stripped.
  destruct (lstrip_spec s) as (l & Hs & Hl & Hf).
  destruct (rstrip_spec (lstrip s)) as (r & Ht & Hr & Hlast).
  exists l, r. rewrite <- Ht. repeat split; auto using rstrip_first_char.
Qed.

(** ** Headers *)

Lemma get_header_setitem (response : HttpResponse) (header value : string) :
  get_header (setitem response header value) header = Some value.
Proof.
  unfold get_header, setitem, set_headers; simpl.
  now rewrite lookup_insert_eq.
Qed.

Lemma get_header_setitem_ne (response : HttpResponse) (header other value : string) :
  lower header <> lower other ->
  get_header (setitem response header value) other = get_header response other.
Proof.
  intros Hne. unfold get_header, setitem, set_headers; simpl.
  now rewrite lookup_insert_ne.
Qed.

Lemma has_header_get_header (response : HttpResponse) (header : string) :
  has_header response header = true <-> is_Some (get_header response header).
Proof.
  unfold has_header, get_header.
  rewrite bool_decide_eq_true, fmap_is_Some. reflexivity.
Qed.

Lemma setitem_body (response : HttpResponse) (header value : string) :
  body (setitem response header value) = body response.
Proof. reflexivity. Qed.

Lemma setitem_status_code (response : HttpResponse) (header value : string) :
  status_code (setitem response header value) = status_code response.
Proof. reflexivity. Qed.

(** ** SetRemoteAddrFromForwardedFor *)

(** C4. When [HTTP_X_FORWARDED_FOR] is present, [process_request] stores in
    [REMOTE_ADDR] the first comma-separated entry of the header with its
    surrounding whitespace stripped, and changes nothing else; when the header
    is absent the request is left as it was.  In both cases it returns
    [None]. *)
Theorem forwarded_for_sets_remote_addr (request : HttpRequest) :
  (forall v, META request !! "HTTP_X_FORWARDED_FOR" = Some v ->
     is_first_field "," v (first_entry v) /\
     is_stripped (first_entry v) (strip (first_entry v)) /\
     SetRemoteAddrFromForwardedFor.process_request request =
       (Ok None,
        set_META request
          (<["REMOTE_ADDR" := strip (first_entry v)]> (META request))))
  /\ (META request !! "HTTP_X_FORWARDED_FOR" = None ->
      SetRemoteAddrFromForwardedFor.process_request request = (Ok None, request)).
Proof.
  unfold SetRemoteAddrFromForwardedFor.process_request,
    try_except_KeyError_else, META_getitem.
  split.
  - intros v Hv. rewrite Hv.
    destruct (split_first_field "," v) as (field & Hfield & Hspec).
    assert (first_entry v = field) as -> by (unfold first_entry; now rewrite Hfield).
    split; [exact Hspec|]. split; [apply strip_spec|].
    unfold bind, lift, list_getitem. now rewrite Hfield.
  - intros Hv. now rewrite Hv.
Qed.

Lemma forwarded_for_sets_remote_addr_witness :
  SetRemoteAddrFromForwardedFor.process_request
    (mkRequest "/en-US/docs" "/docs" ∅
       {[ "HTTP_X_FORWARDED_FOR" := " 203.0.113.7 , 10.0.0.1";
          "REMOTE_ADDR" := "127.0.0.1" ]} None None)
  = (Ok None,
     mkRequest "/en-US/docs" "/docs" ∅
       {[ "HTTP_X_FORWARDED_FOR" := " 203.0.113.7 , 10.0.0.1";
          "REMOTE_ADDR" := "203.0.113.7" ]} None None).
Proof.
  pose proof (proj1 (forwarded_for_sets_remote_addr
    (mkRequest "/en-US/docs" "/docs" ∅
       {[ "HTTP_X_FORWARDED_FOR" := " 203.0.113.7 , 10.0.0.1";
          "REMOTE_ADDR" := "127.0.0.1" ]} None None))
    " 203.0.113.7 , 10.0.0.1" eq_refl) as (_ & _ & H).
  rewrite H. vm_compute. reflexivity.
Defined.

(** ** Forbidden403Middleware *)

Section Forbidden403Middleware_properties.

Variable handler403 : HttpRequest -> HttpResponse.

(** What the code tests is the class of the response, not its status. *)
Lemma forbidden403_by_class (request : HttpRequest) (response : HttpResponse) :
  (response_class response = HttpResponseForbidden_class ->
   Forbidden403Middleware.process_response handler403 request response
   = handler403 request)
  /\ (response_class response <> HttpResponseForbidden_class ->
      Forbidden403Middleware.process_response handler403 request response
      = response).
Proof.
  unfold Forbidden403Middleware.process_response, is_HttpResponseForbidden.
  split; intros H.
  - now rewrite H.
  - destruct (response_class response); congruence.
Qed.

(** C5, at the failing input.  A response whose status code is 403 but which
    is not an [HttpResponseForbidden] (such as [HttpResponse(status=403)]) is
    returned as it is: it is not the page [handler403] renders, unless that
    page happens to be the response itself. *)
Theorem forbidden403_plain_403_not_rendered (request : HttpRequest) (data : string) :
  status_code (new_response HttpResponse_class 403 data) = 403 /\
  Forbidden403Middleware.process_response handler403 request
    (new_response HttpResponse_class 403 data)
  = new_response HttpResponse_class 403 data /\
  (handler403 request <> new_response HttpResponse_class 403 data ->
   Forbidden403Middleware.process_response handler403 request
     (new_response HttpResponse_class 403 data)
   <> handler403 request).
Proof.
  assert (Forbidden403Middleware.process_response handler403 request
            (new_response HttpResponse_class 403 data)
          = new_response HttpResponse_class 403 data) as Hsame.
  { apply forbidden403_by_class. simpl. discriminate. }
  split; [reflexivity|]. split; [exact Hsame|].
  intros Hne Heq. apply Hne. now rewrite <- Heq.
Qed.

End Forbidden403Middleware_properties.

(** ** RestrictedEndpointsMiddleware *)

Section RestrictedEndpointsMiddleware_properties.

Variable conf : settings.t.
Variable is_untrusted : HttpRequest -> Py bool.

Local Abbreviation process_request :=
  (RestrictedEndpointsMiddleware.process_request conf is_untrusted).


End RestrictedEndpointsMiddleware_properties.

(** ** Redirect responses *)

Section Redirects_properties.

Variable iri_to_uri : string -> string.

Lemma permanent_redirect_status (url : string) :
  status_code (permanent_redirect iri_to_uri url) = 301.
Proof. reflexivity. Qed.

Lemma permanent_redirect_location (url : string) :
  get_header (permanent_redirect iri_to_uri url) "Location"
  = Some (iri_to_uri url).
Proof. unfold permanent_redirect. apply get_header_setitem. Qed.

Lemma redirect_status (url : string) :
  status_code (temporary_redirect iri_to_uri url) = 302.
Proof. reflexivity. Qed.


End Redirects_properties.

(** ** LegacyDomainRedirectsMiddleware *)

Section LegacyDomainRedirectsMiddleware_properties.

Variable conf : settings.t.
Variable iri_to_uri : string -> string.
Variable urlparse_scheme : string -> string.
Variable get_host : HttpRequest -> Py string.
Variable get_full_path : HttpRequest -> string.
Variable urljoin : string -> string -> string.

Local Abbreviation process_request :=
  (LegacyDomainRedirectsMiddleware.process_request
     conf iri_to_uri urlparse_scheme get_host get_full_path urljoin).

(** C6. For a request whose host is [host] and whose full path, joined onto
    [settings.SITE_URL], has no scheme or an allowed one (as the full path of
    every request has, being a path): when [host] is one of
    [settings.LEGACY_HOSTS], [process_request] returns a permanent redirect
    (status 301) to the joined URL; for any other host it returns [None].
    The request is not modified. *)
Theorem legacy_domain_redirect (request : HttpRequest) (host : string) :
  get_host request = Ok host ->
  redirect_allowed urlparse_scheme
    (urljoin (settings.SITE_URL conf) (get_full_path request)) = true ->
  (host ∈ settings.LEGACY_HOSTS conf ->
   process_request request
   = (Ok (Some (permanent_redirect iri_to_uri
                  (urljoin (settings.SITE_URL conf) (get_full_path request)))),
      request) /\
   status_code (permanent_redirect iri_to_uri
                  (urljoin (settings.SITE_URL conf) (get_full_path request)))
   = 301 /\
   get_header (permanent_redirect iri_to_uri
                 (urljoin (settings.SITE_URL conf) (get_full_path request)))
     "Location"
   = Some (iri_to_uri (urljoin (settings.SITE_URL conf) (get_full_path request))))
  /\ (host ∉ settings.LEGACY_HOSTS conf ->
      process_request request = (Ok None, request)).
Proof.
  intros Hhost Hallowed.
  unfold LegacyDomainRedirectsMiddleware.process_request,
    bind, get_state, lift, ret.
  rewrite Hhost. split; intros Hin.
  - rewrite bool_decide_eq_true_2 by exact Hin.
    unfold HttpResponsePermanentRedirect.
    unfold redirect_allowed in Hallowed. apply negb_true_iff in Hallowed.
    rewrite Hallowed.
    split; [reflexivity|].
    split; [apply permanent_redirect_status | apply permanent_redirect_location].
  - rewrite bool_decide_eq_false_2 by exact Hin. reflexivity.
Qed.

(** What the hypotheses of the theorem above leave out: a host that Django
    refuses, and a joined URL with a scheme that is not allowed.  In both the
    exception comes out and the request is not modified. *)
Lemma legacy_domain_redirect_errors (request : HttpRequest) :
  (forall e, get_host request = Raise e ->
     process_request request = (Raise e, request))
  /\ (forall host,
      get_host request = Ok host ->
      host ∈ settings.LEGACY_HOSTS conf ->
      redirect_allowed urlparse_scheme
        (urljoin (settings.SITE_URL conf) (get_full_path request)) = false ->
      process_request request = (Raise DisallowedRedirect, request)).
Proof.
  unfold LegacyDomainRedirectsMiddleware.process_request,
    bind, get_state, lift, ret.
  split.
  - intros e Hhost. now rewrite Hhost.
  - intros host Hhost Hin Hrefused. rewrite Hhost.
    rewrite bool_decide_eq_true_2 by exact Hin.
    unfold HttpResponsePermanentRedirect.
    unfold redirect_allowed in Hrefused. apply negb_false_iff in Hrefused.
    now rewrite Hrefused.
Qed.

End LegacyDomainRedirectsMiddleware_properties.

(** ** GZipMiddleware *)

Section GZipMiddleware_properties.

Variable super_process_response : HttpRequest -> HttpResponse -> HttpResponse.

Local Abbreviation process_response :=
  (GZipMiddleware.process_response super_process_response).

(** The subclass adds or removes no header: the response has an [ETag] exactly
    when the parent's response has one. *)
Lemma gzip_has_etag (request : HttpRequest) (response : HttpResponse) :
  has_header (process_response request response) "etag"
  = has_header (super_process_response request response) "etag".
Proof.
  unfold GZipMiddleware.process_response.
  destruct (get_header response "etag") as [etag|]; [|reflexivity].
  destruct (has_header (super_process_response request response) "etag") eqn:E;
    [|exact E].
  apply has_header_get_header. rewrite get_header_setitem. eauto.
Qed.

(** C9. If the response handed in has an [ETag] header, then the response
    handed back, whenever it has an [ETag] header at all, has it with the
    original value, whatever the parent class did to it. *)
Theorem gzip_keeps_etag (request : HttpRequest) (response : HttpResponse)
    (etag : string) :
  get_header response "ETag" = Some etag ->
  has_header (process_response request response) "ETag" = true ->
  get_header (process_response request response) "ETag" = Some etag.
Proof.
  intros Hetag Hout.
  change (has_header (process_response request response) "etag" = true) in Hout.
  change (get_header response "etag" = Some etag) in Hetag.
  change (get_header (process_response request response) "etag" = Some etag).
  rewrite gzip_has_etag in Hout.
  unfold GZipMiddleware.process_response. rewrite Hetag, Hout.
  apply get_header_setitem.
Qed.

(** Everything but the headers is as the parent left it, and so is every
    header other than [ETag]. *)
Lemma gzip_frame (request : HttpRequest) (response : HttpResponse) :
  body (process_response request response)
  = body (super_process_response request response) /\
  status_code (process_response request response)
  = status_code (super_process_response request response) /\
  forall header, lower header <> "etag" ->
    get_header (process_response request response) header
    = get_header (super_process_response request response) header.
Proof.
  unfold GZipMiddleware.process_response.
  destruct (get_header response "etag") as [etag|]; [|auto].
  destruct (has_header (super_process_response request response) "etag"); [|auto].
  repeat split. intros header Hne.
  apply get_header_setitem_ne. intros Heq. apply Hne. now rewrite <- Heq.
Qed.

End GZipMiddleware_properties.

Lemma gzip_keeps_etag_witness :
  get_header
    (gzip_marking_etag (mkRequest "/" "/" ∅ ∅ None None)
       (setitem (new_response HttpResponse_class 200 "body") "ETag" "abc"))
    "ETag" = Some "abc;gzip" /\
  get_header
    (GZipMiddleware.process_response gzip_marking_etag
       (mkRequest "/" "/" ∅ ∅ None None)
       (setitem (new_response HttpResponse_class 200 "body") "ETag" "abc"))
    "ETag" = Some "abc".
Proof.
  split; [vm_compute; reflexivity|].
  apply (gzip_keeps_etag gzip_marking_etag); vm_compute; reflexivity.
Defined.

(** ** RemoveSlashMiddleware and [safe_query_string] *)

Lemma set_META_same (request : HttpRequest) :
  set_META request (META request) = request.
Proof. now destruct request. Qed.

Lemma set_META_set_META (request : HttpRequest) (m m' : gmap string string) :
  set_META (set_META request m) m' = set_META request m'.
Proof. reflexivity. Qed.

Section RemoveSlash_properties.

Variable resolve : string -> option string -> Py unit.
Variable iri_to_uri : string -> string.
Variable urlparse_scheme : string -> string.

Local Abbreviation process_response :=
  (RemoveSlashMiddleware.process_response resolve iri_to_uri urlparse_scheme).
Local Abbreviation should_remove_slash :=
  (RemoveSlashMiddleware.should_remove_slash resolve).

(** Without a [QUERY_STRING] the context manager raises [KeyError] before it
    changes anything. *)
Lemma safe_query_string_missing {A} (body : M HttpRequest A) (request : HttpRequest) :
  META request !! "QUERY_STRING" = None ->
  safe_query_string iri_to_uri body request
  = (Raise (KeyError "QUERY_STRING"), request).
Proof.
  intros H. unfold safe_query_string, bind, META_getitem. now rewrite H.
Qed.

(** With a [QUERY_STRING], the body runs on the request whose query string is
    encoded; its outcome, an exception included, is the outcome of the [with]
    statement, and the query string is put back on the request it left. *)
Lemma safe_query_string_present {A} (body : M HttpRequest A) (request : HttpRequest)
    (qs : string) :
  META request !! "QUERY_STRING" = Some qs ->
  safe_query_string iri_to_uri body request
  = (fst (body (with_query_string request (iri_to_uri qs))),
     with_query_string (snd (body (with_query_string request (iri_to_uri qs)))) qs).
Proof.
  intros H.
  unfold safe_query_string, bind, META_getitem, try_finally, META_setitem, modify.
  rewrite H. fold (with_query_string request (iri_to_uri qs)).
  destruct (body (with_query_string request (iri_to_uri qs))) as [r s1].
  reflexivity.
Qed.

Lemma safe_query_string_restores {A} (body : M HttpRequest A) (request : HttpRequest) :
  META (snd (safe_query_string iri_to_uri body request)) !! "QUERY_STRING"
  = META request !! "QUERY_STRING".
Proof.
  destruct (META request !! "QUERY_STRING") as [qs|] eqn:H.
  - rewrite (safe_query_string_present body request qs H). simpl.
    apply lookup_insert_eq.
  - now rewrite (safe_query_string_missing body request H).
Qed.

Lemma with_query_string_restored (request : HttpRequest) (qs qs' : string) :
  META request !! "QUERY_STRING" = Some qs ->
  with_query_string (with_query_string request qs') qs = request.
Proof.
  intros H. unfold with_query_string. rewrite set_META_set_META. simpl.
  rewrite insert_insert_eq, insert_id by exact H. apply set_META_same.
Qed.

Lemma is_valid_path_cases (request : HttpRequest) (p : string) :
  (resolve p (urlconf request) = Ok tt \/
   resolve p (urlconf request) = Raise Resolver404) ->
  is_valid_path resolve request p = Ok true \/
  is_valid_path resolve request p = Ok false.
Proof.
  unfold is_valid_path. intros [-> | ->]; auto.
Qed.

(** Evaluating the condition reads the request and the resolver only. *)
Lemma should_remove_slash_state (request : HttpRequest) (response : HttpResponse)
    (s : HttpRequest) :
  snd (should_remove_slash request response s) = s.
Proof.
  unfold RemoveSlashMiddleware.should_remove_slash, pand, bind, ret, lift.
  destruct (status_code response =? 404)%nat; [|reflexivity].
  destruct (endswith (path_info request) "/"); [|reflexivity].
  destruct (is_valid_path resolve request (path_info request)) as [[]|];
    reflexivity.
Qed.

Lemma should_remove_slash_true (request : HttpRequest) (response : HttpResponse)
    (s : HttpRequest) :
  slash_conditions resolve request response ->
  should_remove_slash request response s = (Ok true, s).
Proof.
  intros (Hstatus & Hslash & Hfull & Hcut).
  unfold RemoveSlashMiddleware.should_remove_slash, pand, bind, ret, lift.
  rewrite Hstatus, Hslash, Hfull. simpl. now rewrite Hcut.
Qed.

Lemma should_remove_slash_false (request : HttpRequest) (response : HttpResponse)
    (s : HttpRequest) :
  (forall p, resolve p (urlconf request) = Ok tt \/
             resolve p (urlconf request) = Raise Resolver404) ->
  ~ slash_conditions resolve request response ->
  should_remove_slash request response s = (Ok false, s).
Proof.
  intros Hresolve Hnot.
  unfold RemoveSlashMiddleware.should_remove_slash, pand, bind, ret, lift.
  destruct (Nat.eqb_spec (status_code response) 404) as [Hstatus|]; [|reflexivity].
  destruct (endswith (path_info request) "/") eqn:Hslash; [|reflexivity].
  destruct (is_valid_path_cases request (path_info request) (Hresolve _))
    as [Hfull | Hfull]; rewrite Hfull; [reflexivity|]. simpl.
  destruct (is_valid_path_cases request (slice_to_minus1 (path_info request))
              (Hresolve _)) as [Hcut | Hcut]; rewrite Hcut; [|reflexivity].
  exfalso. apply Hnot. unfold slash_conditions. auto.
Qed.

(** The resolver's outcomes and what [is_valid_path] makes of them. *)
Lemma slash_conditions_resolver (request : HttpRequest) (response : HttpResponse) :
  slash_conditions resolve request response <->
  slash_redirect_conditions resolve request response.
Proof.
  unfold slash_conditions, slash_redirect_conditions, is_valid_path.
  split; intros (Hstatus & Hslash & Hfull & Hcut);
    (split; [exact Hstatus|]); (split; [exact Hslash|]).
  - destruct (resolve (path_info request) (urlconf request)) as [u|e];
      [discriminate|].
    destruct (resolve (slice_to_minus1 (path_info request)) (urlconf request))
      as [[]|e']; [|destruct e'; discriminate].
    destruct e; try discriminate. auto.
  - now rewrite Hfull, Hcut.
Qed.

(** Under the four conditions the response is the one the redirect
    constructor gives for the target, or the exception it raises. *)
Lemma process_response_redirecting (request : HttpRequest) (response : HttpResponse) :
  (GET request <> ∅ -> is_Some (META request !! "QUERY_STRING")) ->
  slash_conditions resolve request response ->
  process_response response request
  = (HttpResponsePermanentRedirect iri_to_uri urlparse_scheme
       (slash_removed_url iri_to_uri request), request).
Proof.
  intros Hqs Hcond.
  unfold RemoveSlashMiddleware.process_response, bind at 1, get_state.
  unfold bind at 1. rewrite (should_remove_slash_true _ _ _ Hcond).
  unfold slash_removed_url, dict_truthy.
  destruct (decide (GET request = ∅)) as [Hempty | Hfull].
  - rewrite (bool_decide_eq_false_2 (GET request <> ∅)) by auto.
    rewrite (bool_decide_eq_true_2 (GET request = ∅)) by exact Hempty.
    reflexivity.
  - rewrite (bool_decide_eq_true_2 (GET request <> ∅)) by exact Hfull.
    rewrite (bool_decide_eq_false_2 (GET request = ∅)) by exact Hfull.
    destruct (Hqs Hfull) as [qs Hlookup]. rewrite Hlookup. simpl.
    unfold bind at 1.
    rewrite (safe_query_string_present _ _ _ Hlookup).
    unfold bind, META_getitem, ret. simpl.
    rewrite lookup_insert_eq. simpl.
    fold (with_query_string request (iri_to_uri qs)).
    now rewrite (with_query_string_restored _ _ _ Hlookup).
Qed.

(** C3, with the query string appended as the code appends it.  For a
    request in which [META] has a [QUERY_STRING]
    whenever [GET] is not empty, and a resolver that raises nothing but
    [Resolver404]: when the response is a 404, [path_info] ends with a slash,
    [path_info] does not resolve and [path_info] without that slash does,
    [process_response] returns a permanent redirect (status 301) to the
    target below, unless the target has a scheme that is not allowed, and
    then it raises [DisallowedRedirect]; in every other case it returns the
    response it was given.  The target is [request.path] without its last
    character when [request.GET] is empty, whatever the query string, and
    otherwise that path followed by ['?'] and the encoded query string.  The
    request is the same afterwards. *)
Theorem remove_slash_redirect (request : HttpRequest) (response : HttpResponse) :
  (GET request <> ∅ -> is_Some (META request !! "QUERY_STRING")) ->
  (forall p, resolve p (urlconf request) = Ok tt \/
             resolve p (urlconf request) = Raise Resolver404) ->
  (slash_redirect_conditions resolve request response ->
   (redirect_allowed urlparse_scheme (slash_removed_url iri_to_uri request) = true ->
    process_response response request
    = (Ok (permanent_redirect iri_to_uri
             (slash_removed_url iri_to_uri request)), request) /\
    status_code (permanent_redirect iri_to_uri
                   (slash_removed_url iri_to_uri request)) = 301 /\
    get_header (permanent_redirect iri_to_uri
                  (slash_removed_url iri_to_uri request)) "Location"
    = Some (iri_to_uri (slash_removed_url iri_to_uri request))) /\
   (redirect_allowed urlparse_scheme (slash_removed_url iri_to_uri request) = false ->
    process_response response request = (Raise DisallowedRedirect, request)) /\
   path_info request = slice_to_minus1 (path_info request) +:+ "/")
  /\ (~ slash_redirect_conditions resolve request response ->
      process_response response request = (Ok response, request))
  /\ (GET request = ∅ ->
      slash_removed_url iri_to_uri request = slice_to_minus1 (path request))
  /\ (forall qs,
      GET request <> ∅ ->
      META request !! "QUERY_STRING" = Some qs ->
      slash_removed_url iri_to_uri request
      = slice_to_minus1 (path request) +:+ "?" +:+ iri_to_uri qs).
Proof.
  intros Hqs Hresolve. split; [|split; [|split]].
  - intros Hcond.
    pose proof (proj2 (slash_conditions_resolver request response) Hcond)
      as Hcode.
    rewrite (process_response_redirecting request response Hqs Hcode).
    unfold HttpResponsePermanentRedirect, redirect_allowed.
    split; [|split].
    + intros Hallowed. apply negb_true_iff in Hallowed. rewrite Hallowed.
      split; [reflexivity|].
      split; [apply permanent_redirect_status | apply permanent_redirect_location].
    + intros Hrefused. apply negb_false_iff in Hrefused. now rewrite Hrefused.
    + apply endswith_slash_slice. apply Hcond.
  - intros Hnot.
    unfold RemoveSlashMiddleware.process_response, bind at 1, get_state.
    unfold bind at 1.
    rewrite (should_remove_slash_false _ _ _ Hresolve); [reflexivity|].
    intros Hcode. apply Hnot. now apply slash_conditions_resolver.
  - intros Hempty. unfold slash_removed_url.
    now rewrite bool_decide_eq_true_2 by exact Hempty.
  - intros qs Hfull Hlookup. unfold slash_removed_url.
    rewrite bool_decide_eq_false_2 by exact Hfull. now rewrite Hlookup.
Qed.

(** The request object is the same after [process_response] as before,
    whichever branch ran and whether or not it raised. *)
Lemma remove_slash_request_unchanged (request : HttpRequest) (response : HttpResponse) :
  snd (process_response response request) = request.
Proof.
  unfold RemoveSlashMiddleware.process_response, bind at 1, get_state.
  unfold bind at 1.
  pose proof (should_remove_slash_state request response request) as Hstate.
  destruct (should_remove_slash request response request) as [[[]|e] s];
    simpl in Hstate; subst s; try reflexivity.
  destruct (dict_truthy (GET request)); [|reflexivity].
  unfold bind at 1.
  destruct (META request !! "QUERY_STRING") as [qs|] eqn:Hlookup.
  - rewrite (safe_query_string_present _ _ _ Hlookup).
    unfold bind, META_getitem, ret, lift. simpl.
    rewrite lookup_insert_eq. simpl.
    fold (with_query_string request (iri_to_uri qs)).
    apply (with_query_string_restored _ _ _ Hlookup).
  - now rewrite (safe_query_string_missing _ _ Hlookup).
Qed.

(** C10. After [process_response], [request.META['QUERY_STRING']] is what it
    was before the call.  The context manager [safe_query_string] puts the
    encoded query string in place for the body of the [with] statement and
    restores the original afterwards, whatever the body did and also when the
    body raised: the exception is passed on and the value is back. *)
Theorem remove_slash_keeps_query_string (request : HttpRequest)
    (response : HttpResponse) :
  META (snd (process_response response request)) !! "QUERY_STRING"
  = META request !! "QUERY_STRING"
  /\ (forall (A : Type) (body : M HttpRequest A),
      META (snd (safe_query_string iri_to_uri body request)) !! "QUERY_STRING"
      = META request !! "QUERY_STRING")
  /\ (forall (A : Type) (body : M HttpRequest A) (qs : string),
      META request !! "QUERY_STRING" = Some qs ->
      META (with_query_string request (iri_to_uri qs)) !! "QUERY_STRING"
      = Some (iri_to_uri qs) /\
      fst (safe_query_string iri_to_uri body request)
      = fst (body (with_query_string request (iri_to_uri qs)))).
Proof.
  split; [|split].
  - now rewrite remove_slash_request_unchanged.
  - intros A body. apply safe_query_string_restores.
  - intros A body qs Hlookup. split.
    + apply lookup_insert_eq.
    + now rewrite (safe_query_string_present body request qs Hlookup).
Qed.

End RemoveSlash_properties.

(** ** BrotliMiddleware *)

Lemma search_from_cons (prev_is_word : bool) (c : ascii) (s : string) :
  BrotliMiddleware.search_from prev_is_word (String c s)
  = BrotliMiddleware.match_br_at prev_is_word (String c s)
    || BrotliMiddleware.search_from (BrotliMiddleware.is_word_char c) s.
Proof. reflexivity. Qed.

Lemma search_from_spec (prev_is_word : bool) (s : string) :
  BrotliMiddleware.search_from prev_is_word s = true <->
  exists pre post,
    s = pre +:+ "br" +:+ post /\
    match pre with
    | EmptyString => prev_is_word = false
    | String _ _ => last_char_is BrotliMiddleware.is_word_char pre = false
    end /\
    first_char_is BrotliMiddleware.is_word_char post = false.
Proof.
  split.
  - revert prev_is_word. induction s as [|c s IH]; intros p; simpl.
    + discriminate.
    + intros H. apply orb_true_iff in H as [H | H].
      * destruct s as [|c2 rest]; [discriminate|].
        apply andb_true_iff in H as [H Hnext].
        apply andb_true_iff in H as [H Hr].
        apply andb_true_iff in H as [Hp Hb].
        apply Ascii.eqb_eq in Hb, Hr. subst c c2.
        exists "", rest. split; [reflexivity|].
        split; [now destruct p|].
        destruct rest; [reflexivity|]. now apply negb_true_iff in Hnext.
      * destruct (IH _ H) as (pre & post & -> & Hpre & Hpost).
        exists (String c pre), post. split; [reflexivity|]. split; [|exact Hpost].
        destruct pre; simpl; assumption.
  - intros (pre & post & -> & Hpre & Hpost). revert prev_is_word Hpre.
    induction pre as [|c pre IH]; intros p Hpre.
    + subst p. simpl. destruct post; simpl in *; [reflexivity|].
      now rewrite Hpost.
    + change (String c pre +:+ "br" +:+ post)
        with (String c (pre +:+ "br" +:+ post)).
      rewrite search_from_cons.
      rewrite (IH (BrotliMiddleware.is_word_char c)).
      * apply orb_true_r.
      * destruct pre; simpl in *; assumption.
Qed.

(** The regular expression finds exactly the whole-word occurrences of [br]. *)
Lemma accepts_brotli_whole_word (request : HttpRequest) :
  BrotliMiddleware._accepts_brotli_encoding request = true <->
  contains_br_word (default "" (META request !! "HTTP_ACCEPT_ENCODING")).
Proof.
  unfold BrotliMiddleware._accepts_brotli_encoding,
    BrotliMiddleware.RE_ACCEPT_ENCODING_BROTLI_search, contains_br_word.
  rewrite search_from_spec.
  split; intros (pre & post & Hs & Hpre & Hpost); exists pre, post;
    (split; [exact Hs|]); (split; [|exact Hpost]);
    destruct pre; auto.
Qed.

Section VaryHeaders_properties.

Variable cc_delim_split : string -> list string.

Lemma patch_vary_headers_includes (response : HttpResponse) (name : string) :
  vary_includes (patch_vary_headers cc_delim_split response [name]) name.
Proof.
  unfold vary_includes, patch_vary_headers.
  set (vary_headers := match get_header response "Vary" with
                       | Some v => cc_delim_split v
                       | None => []
                       end).
  eexists. split; [apply get_header_setitem|].
  destruct (decide (lower name ∈ lower <$> vary_headers)) as [Hin | Hnotin].
  - apply list_elem_of_fmap in Hin as (n & Heq & Hn).
    exists n. split; [|now symmetry].
    apply elem_of_app. now left.
  - exists name. split; [|reflexivity].
    apply elem_of_app. right.
    apply list_elem_of_filter. split; [exact Hnotin | apply list_elem_of_here].
Qed.

(** The value [patch_vary_headers] leaves in [Vary] for the one new header
    [Accept-Encoding]: the entries there were, in their order, and
    [Accept-Encoding] after them unless one of them is that name in some
    case. *)
Lemma patch_vary_headers_value (response : HttpResponse) :
  get_header (patch_vary_headers cc_delim_split response ["Accept-Encoding"]) "Vary"
  = Some (join ", "
            (vary_entries cc_delim_split response ++
             (if bool_decide ("accept-encoding"
                              ∈ lower <$> vary_entries cc_delim_split response)
              then [] else ["Accept-Encoding"]))%list).
Proof.
  unfold patch_vary_headers. rewrite get_header_setitem.
  fold (vary_entries cc_delim_split response).
  do 3 f_equal.
  rewrite filter_cons, filter_nil.
  change (lower "Accept-Encoding") with "accept-encoding".
  destruct (decide ("accept-encoding"
                    ∉ lower <$> vary_entries cc_delim_split response))
    as [Hnotin | Hin].
  - now rewrite bool_decide_eq_false_2.
  - rewrite bool_decide_eq_true_2; [reflexivity|].
    destruct (decide ("accept-encoding"
                      ∈ lower <$> vary_entries cc_delim_split response));
      [assumption | contradiction].
Qed.

Lemma patch_vary_headers_frame (response : HttpResponse) (names : list string) :
  body (patch_vary_headers cc_delim_split response names) = body response /\
  status_code (patch_vary_headers cc_delim_split response names)
  = status_code response /\
  response_class (patch_vary_headers cc_delim_split response names)
  = response_class response /\
  same_headers_but ["vary"] response
    (patch_vary_headers cc_delim_split response names).
Proof.
  repeat split. intros header Hne.
  apply get_header_setitem_ne. intros Heq. apply Hne.
  rewrite <- Heq. apply list_elem_of_here.
Qed.

End VaryHeaders_properties.

Section BrotliMiddleware_properties.

Variable brotli_compress : string -> nat -> string.
Variable cc_delim_split : string -> list string.

Local Abbreviation process_response :=
  (BrotliMiddleware.process_response brotli_compress cc_delim_split).

(** The first [if] never raises: [response.content] is only read once the
    response is known not to stream. *)
Lemma should_skip_streaming (request : HttpRequest) (response : HttpResponse)
    (log : BrotliMiddleware.compress_log) :
  streaming response = true ->
  BrotliMiddleware.should_skip request response log = (Ok true, log).
Proof.
  intros H. unfold BrotliMiddleware.should_skip, por, bind, ret.
  now rewrite H.
Qed.

Lemma should_skip_content (request : HttpRequest) (response : HttpResponse)
    (log : BrotliMiddleware.compress_log) (c : string) :
  content response = Ok c ->
  BrotliMiddleware.should_skip request response log
  = (Ok (has_header response "Content-Encoding"
         || negb (BrotliMiddleware._accepts_brotli_encoding request)
         || (len c <? BrotliMiddleware.MIN_LEN_RESPONSE_TO_PROCESS)%nat), log).
Proof.
  intros Hc.
  assert (streaming response = false) as Hs.
  { unfold streaming, content in *. now destruct (body response). }
  unfold BrotliMiddleware.should_skip, por, bind, ret, lift.
  rewrite Hs, Hc.
  destruct (has_header response "Content-Encoding"); [reflexivity|].
  destruct (BrotliMiddleware._accepts_brotli_encoding request); reflexivity.
Qed.

Lemma should_skip_false (request : HttpRequest) (response : HttpResponse)
    (log : BrotliMiddleware.compress_log) (c : string) :
  content response = Ok c ->
  has_header response "Content-Encoding" = false ->
  contains_br_word (default "" (META request !! "HTTP_ACCEPT_ENCODING")) ->
  200 <= len c ->
  BrotliMiddleware.should_skip request response log = (Ok false, log).
Proof.
  intros Hc Hh Ha Hlen.
  rewrite (should_skip_content _ _ _ c Hc). do 2 f_equal.
  apply accepts_brotli_whole_word in Ha. rewrite Hh, Ha. simpl.
  apply Nat.ltb_ge. exact Hlen.
Qed.

Lemma content_cases (response : HttpResponse) :
  streaming response = true \/ exists c, content response = Ok c.
Proof.
  unfold streaming, content. destruct (body response); eauto.
Qed.

Lemma set_content_ok (response : HttpResponse) (c value : string) :
  content response = Ok c ->
  exists response',
    set_content response value = Ok response' /\
    content response' = Ok value /\
    _headers response' = _headers response /\
    status_code response' = status_code response /\
    response_class response' = response_class response.
Proof.
  unfold content, set_content.
  destruct (body response); [|discriminate].
  intros _. eexists. split; [reflexivity|]. repeat split.
Qed.

(** When the first [if] lets the response through, [brotli.compress] is called
    once, on the content and with quality 5, and what is returned depends on
    the lengths alone. *)
Lemma process_response_compressing (request : HttpRequest) (response : HttpResponse)
    (log : BrotliMiddleware.compress_log) (c : string) :
  content response = Ok c ->
  BrotliMiddleware.should_skip request response log = (Ok false, log) ->
  exists out,
    process_response request response log = (Ok out, (log ++ [(c, 5)])%list) /\
    (len c <= len (brotli_compress c 5) -> out = response) /\
    (len (brotli_compress c 5) < len c ->
     content out = Ok (brotli_compress c 5) /\
     get_header out "Content-Encoding" = Some "br" /\
     get_header out "Content-Length"
     = Some (str_of_nat (len (brotli_compress c 5))) /\
     vary_includes out "Accept-Encoding" /\
     status_code out = status_code response /\
     same_headers_but ["vary"; "content-length"; "content-encoding"] response out).
Proof.
  intros Hc Hskip.
  unfold BrotliMiddleware.process_response, bind at 1. rewrite Hskip.
  unfold bind, lift, BrotliMiddleware.compress, ret. rewrite Hc.
  destruct (Nat.leb_spec (len c) (len (brotli_compress c 5))) as [Hle | Hlt].
  - exists response. split; [reflexivity|]. split; [reflexivity | lia].
  - destruct (set_content_ok response c (brotli_compress c 5) Hc)
      as (r1 & Hset & Hcontent & Hheaders & Hstatus & Hclass).
    rewrite Hset. eexists. split; [reflexivity|]. split; [lia|]. intros _.
    destruct (patch_vary_headers_frame cc_delim_split r1 ["Accept-Encoding"])
      as (Hbody & Hstatus' & _ & Hframe).
    repeat split.
    + unfold content in *. rewrite !setitem_body, Hbody. exact Hcontent.
    + apply get_header_setitem.
    + rewrite get_header_setitem_ne by (vm_compute; discriminate).
      apply get_header_setitem.
    + destruct (patch_vary_headers_includes cc_delim_split r1 "Accept-Encoding")
        as (names & Hvary & Hin).
      exists names. split; [|exact Hin].
      rewrite !get_header_setitem_ne by (vm_compute; discriminate).
      exact Hvary.
    + rewrite !setitem_status_code, Hstatus'. exact Hstatus.
    + intros header Hne.
      rewrite !get_header_setitem_ne.
      * rewrite Hframe.
        -- unfold get_header. now rewrite Hheaders.
        -- intros Hin. apply Hne. apply list_elem_of_In in Hin.
           apply list_elem_of_In. simpl in *. tauto.
      * intros Heq. apply Hne. rewrite <- Heq. apply list_elem_of_In.
        simpl. tauto.
      * intros Heq. apply Hne. rewrite <- Heq. apply list_elem_of_In.
        simpl. tauto.
Qed.

(** C1. [process_response] returns the response as it is, and does not call
    [brotli.compress], when the response streams, or already has a
    [Content-Encoding] header, or the request's [Accept-Encoding] does not
    contain [br] as a whole word, or the content is shorter than 200 bytes;
    when none of these holds it calls [brotli.compress] on the content. *)
Theorem brotli_skips_unchanged (request : HttpRequest) (response : HttpResponse)
    (log : BrotliMiddleware.compress_log) :
  (streaming response = true \/
   has_header response "Content-Encoding" = true \/
   ~ contains_br_word (default "" (META request !! "HTTP_ACCEPT_ENCODING")) \/
   (exists c, content response = Ok c /\ len c < 200) ->
   process_response request response log = (Ok response, log))
  /\ (forall c,
      content response = Ok c ->
      has_header response "Content-Encoding" = false ->
      contains_br_word (default "" (META request !! "HTTP_ACCEPT_ENCODING")) ->
      200 <= len c ->
      snd (process_response request response log) = (log ++ [(c, 5)])%list).
Proof.
  split.
  - intros Hany.
    assert (BrotliMiddleware.should_skip request response log = (Ok true, log))
      as Hskip.
    { destruct (content_cases response) as [Hs | [c Hc]];
        [now apply should_skip_streaming|].
      rewrite (should_skip_content _ _ _ c Hc). do 2 f_equal.
      destruct Hany as [Hs | [Hh | [Ha | (c' & Hc' & Hlen)]]].
      - unfold streaming, content in *. now destruct (body response).
      - now rewrite Hh.
      - destruct (BrotliMiddleware._accepts_brotli_encoding request) eqn:E.
        + exfalso. apply Ha. now apply accepts_brotli_whole_word.
        + now rewrite orb_true_r.
      - assert (c' = c) as -> by congruence.
        assert ((len c <? BrotliMiddleware.MIN_LEN_RESPONSE_TO_PROCESS)%nat = true)
          as -> by (apply Nat.ltb_lt; exact Hlen).
        now rewrite orb_true_r. }
    unfold BrotliMiddleware.process_response, bind. now rewrite Hskip.
  - intros c Hc Hh Ha Hlen.
    pose proof (should_skip_false _ _ log c Hc Hh Ha Hlen) as Hskip.
    destruct (process_response_compressing request response log c Hc Hskip)
      as (out & Heq & _).
    now rewrite Heq.
Qed.

(** The [Vary] header of the compressed response. *)
Lemma process_response_compressing_vary (request : HttpRequest)
    (response out : HttpResponse) (log : BrotliMiddleware.compress_log)
    (c : string) :
  content response = Ok c ->
  BrotliMiddleware.should_skip request response log = (Ok false, log) ->
  len (brotli_compress c 5) < len c ->
  fst (process_response request response log) = Ok out ->
  get_header out "Vary"
  = Some (join ", "
            (vary_entries cc_delim_split response ++
             (if bool_decide ("accept-encoding"
                              ∈ lower <$> vary_entries cc_delim_split response)
              then [] else ["Accept-Encoding"]))%list).
Proof.
  intros Hc Hskip Hlt.
  unfold BrotliMiddleware.process_response, bind at 1. rewrite Hskip.
  unfold bind, lift, BrotliMiddleware.compress, ret. rewrite Hc.
  destruct (Nat.leb_spec (len c) (len (brotli_compress c 5))) as [Hle | _];
    [lia|].
  destruct (set_content_ok response c (brotli_compress c 5) Hc)
    as (r1 & Hset & _ & Hheaders & _).
  rewrite Hset. simpl. intros Hout. injection Hout as <-.
  rewrite !get_header_setitem_ne by (vm_compute; discriminate).
  rewrite patch_vary_headers_value.
  assert (vary_entries cc_delim_split r1 = vary_entries cc_delim_split response)
    as ->; [|reflexivity].
  unfold vary_entries, get_header. now rewrite Hheaders.
Qed.

(** C2. [process_response] always returns a response, and that response never
    carries more bytes than the one it was given.  Where [brotli.compress] is
    tried on the content [c]: if the result is not strictly shorter, the
    response is returned as it is; if it is, the response returned carries the
    compressed content, [Content-Encoding: br], the compressed length in
    [Content-Length] and [Accept-Encoding] in [Vary], its other headers being
    those of the response given.  The [Vary] header is added to, not
    replaced: its value is the entries the response given had, in their
    order, joined with a comma and a space, with [Accept-Encoding] after them
    unless one of them is that name already, in whatever case; every entry
    there was is an entry still. *)
Theorem brotli_never_grows (request : HttpRequest) (response : HttpResponse)
    (log : BrotliMiddleware.compress_log) :
  is_ok (fst (process_response request response log)) = true
  /\ (forall out, fst (process_response request response log) = Ok out ->
      content_length out <= content_length response)
  /\ (forall c out,
      content response = Ok c ->
      has_header response "Content-Encoding" = false ->
      contains_br_word (default "" (META request !! "HTTP_ACCEPT_ENCODING")) ->
      200 <= len c ->
      fst (process_response request response log) = Ok out ->
      (len c <= len (brotli_compress c 5) -> out = response) /\
      (len (brotli_compress c 5) < len c ->
       content out = Ok (brotli_compress c 5) /\
       get_header out "Content-Encoding" = Some "br" /\
       get_header out "Content-Length"
       = Some (str_of_nat (len (brotli_compress c 5))) /\
       vary_includes out "Accept-Encoding" /\
       same_headers_but ["vary"; "content-length"; "content-encoding"]
         response out /\
       get_header out "Vary"
       = Some (join ", "
                 (vary_entries cc_delim_split response ++
                  (if bool_decide
                        ("accept-encoding"
                         ∈ lower <$> vary_entries cc_delim_split response)
                   then [] else ["Accept-Encoding"]))%list) /\
       (exists names,
          get_header out "Vary" = Some (join ", " names) /\
          forall entry, entry ∈ vary_entries cc_delim_split response ->
                        entry ∈ names))).
Proof.
  assert (forall c, content response = Ok c ->
          exists b, BrotliMiddleware.should_skip request response log = (Ok b, log))
    as Hskips.
  { intros c Hc. rewrite (should_skip_content _ _ _ c Hc). eauto. }
  split; [|split].
  - destruct (content_cases response) as [Hs | [c Hc]].
    + unfold BrotliMiddleware.process_response, bind.
      now rewrite (should_skip_streaming _ _ _ Hs).
    + destruct (Hskips c Hc) as [[] Hskip].
      * unfold BrotliMiddleware.process_response, bind. now rewrite Hskip.
      * destruct (process_response_compressing _ _ _ c Hc Hskip)
          as (out & Heq & _).
        now rewrite Heq.
  - intros out Hout.
    destruct (content_cases response) as [Hs | [c Hc]].
    + unfold BrotliMiddleware.process_response, bind in Hout.
      rewrite (should_skip_streaming _ _ _ Hs) in Hout.
      injection Hout as <-. lia.
    + destruct (Hskips c Hc) as [[] Hskip].
      * unfold BrotliMiddleware.process_response, bind in Hout.
        rewrite Hskip in Hout. injection Hout as <-. lia.
      * destruct (process_response_compressing _ _ _ c Hc Hskip)
          as (out' & Heq & Hsame & Hsmaller).
        rewrite Heq in Hout. injection Hout as <-.
        destruct (Nat.le_gt_cases (len c) (len (brotli_compress c 5)))
          as [Hle | Hlt].
        -- rewrite (Hsame Hle). lia.
        -- destruct (Hsmaller Hlt) as (Hcontent & _).
           unfold content_length, content in *.
           destruct (body out'); [|discriminate].
           destruct (body response); [|discriminate].
           injection Hcontent as ->. injection Hc as ->. lia.
  - intros c out Hc Hh Ha Hlen Hout.
    pose proof (should_skip_false _ _ log c Hc Hh Ha Hlen) as Hskip.
    destruct (process_response_compressing _ _ _ c Hc Hskip)
      as (out' & Heq & Hsame & Hsmaller).
    pose proof (fun Hlt => process_response_compressing_vary
                             request response out log c Hc Hskip Hlt Hout)
      as Hvary.
    rewrite Heq in Hout. injection Hout as <-.
    split; [exact Hsame|]. intros Hlt.
    destruct (Hsmaller Hlt) as (H1 & H2 & H3 & H4 & _ & H6).
    repeat (split; [assumption|]).
    split; [exact (Hvary Hlt)|].
    eexists. split; [exact (Hvary Hlt)|].
    intros entry Hin. apply elem_of_app. now left.
Qed.

End BrotliMiddleware_properties.

(** ** LocaleURLMiddleware *)



Section LocaleURLMiddleware_properties.

Variable conf : settings.t.
Variable iri_to_uri : string -> string.
Variable urlparse_scheme : string -> string.
Variable Prefixer_init : HttpRequest -> LocaleURLMiddleware.Prefixer.
Variable Prefixer_fix :
  HttpRequest -> LocaleURLMiddleware.Prefixer -> string -> string.
Variable split_path : string -> string * string.
Variable urlparams : string -> gmap string qvalue -> Py string.
Variable quote_utf8 : string -> string.

Local Abbreviation process_request :=
  (LocaleURLMiddleware.process_request
     conf iri_to_uri urlparse_scheme Prefixer_init Prefixer_fix split_path
     urlparams quote_utf8).




Lemma redirect_constructor (target : string) :
  (redirect_allowed urlparse_scheme target = true ->
   HttpResponseRedirect iri_to_uri urlparse_scheme target
   = Ok (temporary_redirect iri_to_uri target))
  /\ (redirect_allowed urlparse_scheme target = false ->
      HttpResponseRedirect iri_to_uri urlparse_scheme target
      = Raise DisallowedRedirect).
Proof.
  unfold HttpResponseRedirect, redirect_allowed. split; intros H.
  - apply negb_true_iff in H. now rewrite H.
  - apply negb_false_iff in H. now rewrite H.
Qed.


End LocaleURLMiddleware_properties.

(** ** Instances *)

Lemma brotli_skips_unchanged_witness :
  BrotliMiddleware.process_response run_length split_commas
    docs_slash_request (new_response HttpResponse_class 200 "short") []
  = (Ok (new_response HttpResponse_class 200 "short"), []) /\
  snd (BrotliMiddleware.process_response run_length split_commas
         docs_slash_request long_page [])
  = [(replicate_char 300 "a", 5)].
Proof.
  destruct (brotli_skips_unchanged run_length split_commas docs_slash_request
              (new_response HttpResponse_class 200 "short") []) as [Hskip _].
  destruct (brotli_skips_unchanged run_length split_commas docs_slash_request
              long_page []) as [_ Hcall].
  split.
  - apply Hskip. right. right. right.
    exists "short". split; [reflexivity | vm_compute; lia].
  - apply (Hcall (replicate_char 300 "a")).
    + reflexivity.
    + vm_compute. reflexivity.
    + exists "gzip, deflate, ", "". vm_compute. repeat split.
    + vm_compute. lia.
Defined.

Lemma brotli_never_grows_witness :
  fst (BrotliMiddleware.process_response run_length split_commas
         docs_slash_request long_page []) = Ok compressed_long_page /\
  content_length compressed_long_page <= content_length long_page /\
  content compressed_long_page = Ok "a300" /\
  get_header compressed_long_page "Content-Encoding" = Some "br" /\
  get_header compressed_long_page "Content-Length" = Some "4" /\
  vary_includes compressed_long_page "Accept-Encoding" /\
  get_header long_page "Vary" = Some "Cookie" /\
  get_header compressed_long_page "Vary" = Some "Cookie, Accept-Encoding".
Proof.
  assert (fst (BrotliMiddleware.process_response run_length split_commas
                 docs_slash_request long_page []) = Ok compressed_long_page)
    as Hout by (vm_compute; reflexivity).
  destruct (brotli_never_grows run_length split_commas docs_slash_request
              long_page []) as (_ & Hlength & Hcompress).
  split; [exact Hout|]. split; [exact (Hlength _ Hout)|].
  destruct (Hcompress (replicate_char 300 "a") compressed_long_page)
    as [_ Hsmaller].
  - reflexivity.
  - vm_compute. reflexivity.
  - exists "gzip, deflate, ", "". vm_compute. repeat split.
  - vm_compute. lia.
  - exact Hout.
  - destruct Hsmaller as (H1 & H2 & H3 & H4 & _ & Hvary & _);
      [vm_compute; lia|].
    repeat (split; [assumption|]). split; [reflexivity|].
    rewrite Hvary. vm_compute. reflexivity.
Defined.

Lemma remove_slash_redirect_witness :
  RemoveSlashMiddleware.process_response resolve_docs encode_spaces scheme_of
    (new_response HttpResponseNotFound_class 404 "") docs_slash_request
  = (Ok (permanent_redirect encode_spaces
           "/en-US/docs?q=brotli%20middleware"),
     docs_slash_request).
Proof.
  destruct (remove_slash_redirect resolve_docs encode_spaces scheme_of
              docs_slash_request
              (new_response HttpResponseNotFound_class 404 ""))
    as [Hredirect _].
  - intros _. vm_compute. eexists. reflexivity.
  - intros p. unfold resolve_docs. destruct (String.eqb p "/docs"); auto.
  - destruct Hredirect as [Hallowed _].
    + repeat split; vm_compute; reflexivity.
    + destruct Hallowed as [Heq _]; [vm_compute; reflexivity | exact Heq].
Defined.

(** C3, as it was stated, at the request for [/en-US/docs/?&]: the request
    has a query string, [&], and the four conditions hold, yet the redirect
    goes to [/en-US/docs] with no question mark and no query string after it,
    since [request.GET] is empty. *)
Lemma remove_slash_redirect_counterexample :
  META ampersand_request !! "QUERY_STRING" = Some "&" /\
  slash_redirect_conditions resolve_docs ampersand_request
    (new_response HttpResponseNotFound_class 404 "") /\
  RemoveSlashMiddleware.process_response resolve_docs encode_spaces scheme_of
    (new_response HttpResponseNotFound_class 404 "") ampersand_request
  = (Ok (permanent_redirect encode_spaces "/en-US/docs"), ampersand_request) /\
  get_header (permanent_redirect encode_spaces "/en-US/docs") "Location"
  = Some "/en-US/docs" /\
  "/en-US/docs" <> "/en-US/docs?&".
Proof.
  split; [reflexivity|]. split; [repeat split; vm_compute; reflexivity|].
  split; [vm_compute; reflexivity|]. split; [vm_compute; reflexivity|].
  discriminate.
Qed.

Lemma legacy_domain_redirect_witness :
  LegacyDomainRedirectsMiddleware.process_request mdn_settings encode_spaces
    scheme_of host_header full_path_of join_site docs_slash_request
  = (Ok (Some (permanent_redirect encode_spaces
                 "https://developer.mozilla.org/en-US/docs/?q=brotli%20middleware")),
     docs_slash_request) /\
  LegacyDomainRedirectsMiddleware.process_request mdn_settings encode_spaces
    scheme_of host_header full_path_of join_site attachment_request
  = (Ok None, attachment_request).
Proof.
  split.
  - destruct (legacy_domain_redirect mdn_settings encode_spaces scheme_of
                host_header full_path_of join_site docs_slash_request
                "developer.mozilla.com" eq_refl)
      as [Hlegacy _]; [vm_compute; reflexivity|].
    destruct Hlegacy as [Heq _]; [|exact Heq].
    apply list_elem_of_In. simpl. auto.
  - destruct (legacy_domain_redirect mdn_settings encode_spaces scheme_of
                host_header full_path_of join_site attachment_request
                "mdn.mozillademos.org" eq_refl)
      as [_ Hother]; [vm_compute; reflexivity|].
    apply Hother. intros Hin. apply list_elem_of_In in Hin. simpl in Hin.
    destruct Hin as [H | [H | []]]; discriminate.
Defined.


Lemma remove_slash_keeps_query_string_witness :
  META (with_query_string docs_slash_request
          (encode_spaces "q=brotli middleware")) !! "QUERY_STRING"
  = Some "q=brotli%20middleware" /\
  fst (safe_query_string encode_spaces
         (raise (OtherError "DisallowedRedirect") : M HttpRequest string)
         docs_slash_request)
  = Raise (OtherError "DisallowedRedirect") /\
  META (snd (safe_query_string encode_spaces
               (raise (OtherError "DisallowedRedirect") : M HttpRequest string)
               docs_slash_request)) !! "QUERY_STRING"
  = Some "q=brotli middleware".
Proof.
  destruct (remove_slash_keeps_query_string resolve_docs encode_spaces scheme_of
              docs_slash_request (new_response HttpResponseNotFound_class 404 ""))
    as (_ & Hrestored & Hbody).
  destruct (Hbody string (raise (OtherError "DisallowedRedirect"))
              "q=brotli middleware" eq_refl) as [Hencoded Hraised].
  split; [exact Hencoded|]. split; [exact Hraised|].
  rewrite Hrestored. reflexivity.
Defined.


(** * Further properties *)

(** ** More on RemoveSlashMiddleware and [safe_query_string] *)

Section RemoveSlash_further.

Variable resolve : string -> option string -> Py unit.
Variable iri_to_uri : string -> string.
Variable urlparse_scheme : string -> string.

Local Abbreviation process_response :=
  (RemoveSlashMiddleware.process_response resolve iri_to_uri urlparse_scheme).
Local Abbreviation should_remove_slash :=
  (RemoveSlashMiddleware.should_remove_slash resolve).

(** X1. A response that is not a 404, a [path_info] without a trailing
    slash, or a [path_info] that resolves: in each case the response is
    returned as it is, and the later conditions are not evaluated, so that
    nothing the resolver would do there (raising included) matters. *)
Theorem remove_slash_short_circuit (request : HttpRequest) (response : HttpResponse) :
  status_code response <> 404 \/
  endswith (path_info request) "/" = false \/
  (status_code response = 404 /\ endswith (path_info request) "/" = true /\
   resolve (path_info request) (urlconf request) = Ok tt) ->
  process_response response request = (Ok response, request).
Proof.
  intros Hcases.
  assert (should_remove_slash request response request = (Ok false, request))
    as Hcond.
  { unfold RemoveSlashMiddleware.should_remove_slash, pand, bind, ret, lift.
    destruct Hcases as [Hstatus | [Hslash | (Hstatus & Hslash & Hresolve)]].
    - apply Nat.eqb_neq in Hstatus. now rewrite Hstatus.
    - rewrite Hslash. now destruct (status_code response =? 404)%nat.
    - unfold is_valid_path. rewrite Hstatus, Hslash, Hresolve. reflexivity. }
  unfold RemoveSlashMiddleware.process_response, bind at 1, get_state.
  unfold bind at 1. now rewrite Hcond.
Qed.

(** X2. [is_valid_path] catches [Resolver404] and nothing else: for a 404 on a
    path that ends with a slash, an exception of another kind raised by the
    resolver, on [path_info] or on [path_info] without its slash, comes out
    of [process_response], and the request is as it was. *)
Theorem remove_slash_resolver_error (request : HttpRequest) (response : HttpResponse)
    (e : exn) :
  status_code response = 404 ->
  endswith (path_info request) "/" = true ->
  e <> Resolver404 ->
  resolve (path_info request) (urlconf request) = Raise e \/
  (resolve (path_info request) (urlconf request) = Raise Resolver404 /\
   resolve (slice_to_minus1 (path_info request)) (urlconf request) = Raise e) ->
  process_response response request = (Raise e, request).
Proof.
  intros Hstatus Hslash Hne Hraise.
  assert (forall p, resolve p (urlconf request) = Raise e ->
          is_valid_path resolve request p = Raise e) as Hpass.
  { intros p Hp. unfold is_valid_path. rewrite Hp. now destruct e. }
  assert (should_remove_slash request response request = (Raise e, request))
    as Hcond.
  { unfold RemoveSlashMiddleware.should_remove_slash, pand, bind, ret, lift.
    rewrite Hstatus, Hslash. simpl.
    destruct Hraise as [Hfirst | [Hfirst Hsecond]].
    - now rewrite (Hpass _ Hfirst).
    - unfold is_valid_path at 1. rewrite Hfirst. simpl.
      now rewrite (Hpass _ Hsecond). }
  unfold RemoveSlashMiddleware.process_response, bind at 1, get_state.
  unfold bind at 1. now rewrite Hcond.
Qed.

(** X3. When the four conditions hold for a request that has query parameters
    but no [QUERY_STRING] in [META], [process_response] raises
    [KeyError('QUERY_STRING')] instead of redirecting, and leaves the request
    as it was. *)
Theorem remove_slash_missing_query_string (request : HttpRequest)
    (response : HttpResponse) :
  slash_conditions resolve request response ->
  GET request <> ∅ ->
  META request !! "QUERY_STRING" = None ->
  process_response response request = (Raise (KeyError "QUERY_STRING"), request).
Proof.
  intros Hcond Hget Hmissing.
  unfold RemoveSlashMiddleware.process_response, bind at 1, get_state.
  unfold bind at 1. rewrite (should_remove_slash_true _ _ _ _ Hcond).
  unfold dict_truthy. rewrite bool_decide_eq_true_2 by exact Hget.
  unfold bind at 1.
  now rewrite (safe_query_string_missing iri_to_uri _ _ Hmissing).
Qed.

(** X4. [process_response] is idempotent: handed the response it returned, it
    returns that response again.  In particular the redirect it builds is
    never redirected once more. *)
Theorem remove_slash_idempotent (request request' : HttpRequest)
    (response out : HttpResponse) :
  process_response response request = (Ok out, request') ->
  process_response out request' = (Ok out, request').
Proof.
  intros Hfirst.
  assert (request' = request) as ->.
  { rewrite <- (remove_slash_request_unchanged resolve iri_to_uri
                  urlparse_scheme request response).
    now rewrite Hfirst. }
  pose proof (should_remove_slash_state resolve request response request) as Hstate.
  unfold RemoveSlashMiddleware.process_response, bind at 1, get_state in Hfirst.
  unfold bind at 1 in Hfirst.
  destruct (should_remove_slash request response request) as [[[]|e] s] eqn:Hcond;
    simpl in Hstate; subst s.
  - assert (status_code out = 301) as Hstatus.
    { assert (forall url s,
                lift (HttpResponsePermanentRedirect iri_to_uri urlparse_scheme url) s
                = (Ok out, request) -> status_code out = 301) as Hbuilt.
      { intros url s. unfold lift, HttpResponsePermanentRedirect.
        destruct (_ && _); [discriminate|].
        intros Hout. injection Hout as <- _. reflexivity. }
      destruct (dict_truthy (GET request)).
      - unfold bind at 1 in Hfirst.
        destruct (safe_query_string iri_to_uri _ request) as [[newurl|e] s];
          [|discriminate].
        exact (Hbuilt _ _ Hfirst).
      - unfold bind at 1, ret in Hfirst. exact (Hbuilt _ _ Hfirst). }
    apply remove_slash_short_circuit. left. rewrite Hstatus. discriminate.
  - injection Hfirst as <-.
    unfold RemoveSlashMiddleware.process_response, bind at 1, get_state.
    unfold bind at 1. now rewrite Hcond.
  - discriminate.
Qed.

(** X5. Without a [QUERY_STRING] in [META], [safe_query_string] raises
    [KeyError('QUERY_STRING')] before the body of the [with] statement runs:
    the outcome is the same for every body, and the request is as it was.
    With one, a body that leaves the request alone gets the whole request
    back as it was before the [with] statement. *)
Theorem safe_query_string_key_error (request : HttpRequest) :
  (META request !! "QUERY_STRING" = None ->
   forall (A : Type) (body : M HttpRequest A),
     safe_query_string iri_to_uri body request
     = (Raise (KeyError "QUERY_STRING"), request))
  /\ (forall (A : Type) (body : M HttpRequest A) (qs : string),
      META request !! "QUERY_STRING" = Some qs ->
      snd (body (with_query_string request (iri_to_uri qs)))
      = with_query_string request (iri_to_uri qs) ->
      snd (safe_query_string iri_to_uri body request) = request).
Proof.
  split.
  - intros Hmissing A body. now apply safe_query_string_missing.
  - intros A body qs Hqs Hbody.
    rewrite (safe_query_string_present iri_to_uri body request qs Hqs).
    simpl. rewrite Hbody. now apply with_query_string_restored.
Qed.

End RemoveSlash_further.

Lemma remove_slash_short_circuit_witness :
  RemoveSlashMiddleware.process_response resolve_broken encode_spaces scheme_of
    (new_response HttpResponse_class 200 "page") docs_slash_request
  = (Ok (new_response HttpResponse_class 200 "page"), docs_slash_request).
Proof.
  apply (remove_slash_short_circuit resolve_broken encode_spaces scheme_of).
  left. vm_compute. lia.
Defined.

Lemma remove_slash_resolver_error_witness :
  RemoveSlashMiddleware.process_response resolve_broken encode_spaces scheme_of
    (new_response HttpResponseNotFound_class 404 "") docs_slash_request
  = (Raise (OtherError "ImproperlyConfigured"), docs_slash_request).
Proof.
  apply (remove_slash_resolver_error resolve_broken encode_spaces scheme_of).
  - reflexivity.
  - vm_compute. reflexivity.
  - discriminate.
  - left. reflexivity.
Defined.

Lemma remove_slash_missing_query_string_witness :
  RemoveSlashMiddleware.process_response resolve_docs encode_spaces scheme_of
    (new_response HttpResponseNotFound_class 404 "") handmade_request
  = (Raise (KeyError "QUERY_STRING"), handmade_request).
Proof.
  apply (remove_slash_missing_query_string resolve_docs encode_spaces scheme_of).
  - repeat split; vm_compute; reflexivity.
  - vm_compute. discriminate.
  - reflexivity.
Defined.

Lemma remove_slash_idempotent_witness :
  RemoveSlashMiddleware.process_response resolve_docs encode_spaces scheme_of
    (permanent_redirect encode_spaces
       "/en-US/docs?q=brotli%20middleware")
    docs_slash_request
  = (Ok (permanent_redirect encode_spaces
           "/en-US/docs?q=brotli%20middleware"),
     docs_slash_request).
Proof.
  apply (remove_slash_idempotent resolve_docs encode_spaces scheme_of docs_slash_request
           docs_slash_request (new_response HttpResponseNotFound_class 404 "")).
  vm_compute. reflexivity.
Defined.

Lemma safe_query_string_key_error_witness :
  safe_query_string encode_spaces (ret "unused" : M HttpRequest string)
    handmade_request
  = (Raise (KeyError "QUERY_STRING"), handmade_request) /\
  snd (safe_query_string encode_spaces
         (META_getitem "QUERY_STRING") docs_slash_request)
  = docs_slash_request.
Proof.
  split.
  - apply (safe_query_string_key_error encode_spaces handmade_request).
    reflexivity.
  - apply (proj2 (safe_query_string_key_error encode_spaces docs_slash_request)
             string (META_getitem "QUERY_STRING") "q=brotli middleware").
    + reflexivity.
    + vm_compute. reflexivity.
Defined.

(** ** More on SetRemoteAddrFromForwardedFor *)

Lemma list_ascii_of_string_append (a b : string) :
  list_ascii_of_string (a +:+ b)
  = (list_ascii_of_string a ++ list_ascii_of_string b)%list.
Proof.
  induction a as [|c a IH]; simpl; [reflexivity | now rewrite IH].
Qed.

(** The characters of [s.strip()] are characters of [s]. *)
Lemma strip_chars (s : string) (c : ascii) :
  In c (list_ascii_of_string (strip s)) -> In c (list_ascii_of_string s).
Proof.
  destruct (strip_spec s) as (l & r & Hs & _).
  intros Hin. rewrite Hs, !list_ascii_of_string_append.
  apply in_or_app. right. apply in_or_app. now left.
Qed.

(** The two ways [process_request] can go. *)
Lemma forwarded_for_present_or_absent (request : HttpRequest) :
  (exists v,
     META request !! "HTTP_X_FORWARDED_FOR" = Some v /\
     SetRemoteAddrFromForwardedFor.process_request request
     = (Ok None,
        set_META request
          (<["REMOTE_ADDR" := strip (first_entry v)]> (META request))))
  \/ (META request !! "HTTP_X_FORWARDED_FOR" = None /\
      SetRemoteAddrFromForwardedFor.process_request request = (Ok None, request)).
Proof.
  unfold SetRemoteAddrFromForwardedFor.process_request,
    try_except_KeyError_else, META_getitem.
  destruct (META request !! "HTTP_X_FORWARDED_FOR") as [v|] eqn:Hv.
  - left. exists v. split; [reflexivity|].
    destruct (split_first_field "," v) as (field & Hfield & _).
    unfold bind, lift, list_getitem, first_entry. now rewrite Hfield.
  - right. split; reflexivity.
Qed.

(** X6. [process_request] never raises, whatever the header holds (the index
    [0] into the split is always in range), and it is idempotent: a second
    call on the request it left changes nothing more. *)
Theorem forwarded_for_idempotent (request : HttpRequest) :
  fst (SetRemoteAddrFromForwardedFor.process_request request) = Ok None /\
  SetRemoteAddrFromForwardedFor.process_request
    (snd (SetRemoteAddrFromForwardedFor.process_request request))
  = SetRemoteAddrFromForwardedFor.process_request request.
Proof.
  destruct (forwarded_for_present_or_absent request) as [(v & Hv & Hrun) | [Hv Hrun]].
  - rewrite Hrun. split; [reflexivity|]. simpl.
    destruct (forwarded_for_present_or_absent
                (set_META request
                   (<["REMOTE_ADDR" := strip (first_entry v)]> (META request))))
      as [(v' & Hv' & Hrun') | [Hv' _]].
    + simpl in Hv'. rewrite lookup_insert_ne in Hv' by discriminate.
      assert (v' = v) as -> by congruence.
      rewrite Hrun'. simpl. now rewrite insert_insert_eq.
    + simpl in Hv'. rewrite lookup_insert_ne in Hv' by discriminate. congruence.
  - rewrite Hrun. split; [reflexivity|]. simpl. exact Hrun.
Qed.

(** X7. When [HTTP_X_FORWARDED_FOR] is present, the [REMOTE_ADDR] that
    [process_request] leaves holds no comma and neither starts nor ends with
    whitespace; the forwarded header itself and every other entry of [META]
    are as they were. *)
Theorem forwarded_for_remote_addr_clean (request : HttpRequest) (v : string) :
  META request !! "HTTP_X_FORWARDED_FOR" = Some v ->
  exists addr,
    META (snd (SetRemoteAddrFromForwardedFor.process_request request))
      !! "REMOTE_ADDR" = Some addr /\
    addr = strip (first_entry v) /\
    (forall c, In c (list_ascii_of_string addr) -> c <> ","%char) /\
    first_char_is isspace addr = false /\
    last_char_is isspace addr = false /\
    (forall key, key <> "REMOTE_ADDR" ->
       META (snd (SetRemoteAddrFromForwardedFor.process_request request)) !! key
       = META request !! key).
Proof.
  intros Hv.
  destruct (forwarded_for_present_or_absent request) as [(v' & Hv' & Hrun) | [Hnone _]];
    [|congruence].
  assert (v' = v) as -> by congruence.
  rewrite Hrun. simpl. exists (strip (first_entry v)).
  split; [apply lookup_insert_eq|]. split; [reflexivity|].
  destruct (split_first_field "," v) as (field & Hfield & rest & _ & Hnocomma & _).
  assert (first_entry v = field) as Hentry
    by (unfold first_entry; now rewrite Hfield).
  destruct (strip_spec (first_entry v)) as (l & r & _ & _ & _ & Hfirst & Hlast).
  split; [|split; [exact Hfirst | split; [exact Hlast|]]].
  - intros c Hin. apply Hnocomma. rewrite <- Hentry. now apply strip_chars.
  - intros key Hkey. now apply lookup_insert_ne.
Qed.

Lemma forwarded_for_remote_addr_clean_witness :
  META (snd (SetRemoteAddrFromForwardedFor.process_request proxied_request))
    !! "REMOTE_ADDR" = Some "203.0.113.7" /\
  META (snd (SetRemoteAddrFromForwardedFor.process_request proxied_request))
    !! "HTTP_X_FORWARDED_FOR" = Some " 203.0.113.7 , 10.0.0.1".
Proof.
  destruct (forwarded_for_remote_addr_clean proxied_request
              " 203.0.113.7 , 10.0.0.1" eq_refl)
    as (addr & Haddr & -> & _ & _ & _ & Hframe).
  split; [exact Haddr|].
  rewrite Hframe by discriminate. reflexivity.
Defined.

(** ** More on BrotliMiddleware *)

Section BrotliMiddleware_further.

Variable brotli_compress : string -> nat -> string.
Variable cc_delim_split : string -> list string.

Local Abbreviation process_response :=
  (BrotliMiddleware.process_response brotli_compress cc_delim_split).

(** What [process_response] returns: the response itself, or the response
    with its content compressed and three headers set. *)
Lemma process_response_outcomes (request : HttpRequest) (response : HttpResponse)
    (log : BrotliMiddleware.compress_log) :
  exists out log',
    process_response request response log = (Ok out, log') /\
    (out = response \/
     exists c r1,
       content response = Ok c /\
       set_content response (brotli_compress c 5) = Ok r1 /\
       out = setitem
               (setitem (patch_vary_headers cc_delim_split r1 ["Accept-Encoding"])
                        "Content-Length"
                        (str_of_nat (len (brotli_compress c 5))))
               "Content-Encoding" "br").
Proof.
  destruct (content_cases response) as [Hs | [c Hc]].
  - exists response, log. split; [|now left].
    unfold BrotliMiddleware.process_response, bind.
    now rewrite (should_skip_streaming _ _ _ Hs).
  - unfold BrotliMiddleware.process_response, bind at 1.
    rewrite (should_skip_content _ _ _ c Hc).
    destruct (has_header response "Content-Encoding"
              || negb (BrotliMiddleware._accepts_brotli_encoding request)
              || (len c <? BrotliMiddleware.MIN_LEN_RESPONSE_TO_PROCESS)%nat).
    + exists response, log. split; [reflexivity | now left].
    + unfold bind, lift, BrotliMiddleware.compress, ret. rewrite Hc.
      destruct (len c <=? len (brotli_compress c 5))%nat.
      * eexists _, _. split; [reflexivity | now left].
      * destruct (set_content_ok response c (brotli_compress c 5) Hc)
          as (r1 & Hset & _).
        rewrite Hset. eexists _, _. split; [reflexivity|].
        right. exists c, r1. auto.
Qed.

(** A response that has its content and a [Content-Encoding] header is
    returned as it is. *)
Lemma brotli_skips_content_encoding (request : HttpRequest) (response : HttpResponse)
    (log : BrotliMiddleware.compress_log) :
  (exists c, content response = Ok c) ->
  has_header response "Content-Encoding" = true ->
  process_response request response log = (Ok response, log).
Proof.
  intros [c Hc] Hh.
  unfold BrotliMiddleware.process_response, bind.
  rewrite (should_skip_content _ _ _ c Hc), Hh. reflexivity.
Qed.

(** [process_response] on a response that has its content, written out. *)
Lemma process_response_content (request : HttpRequest) (response : HttpResponse)
    (log : BrotliMiddleware.compress_log) (c : string) :
  content response = Ok c ->
  process_response request response log
  = if has_header response "Content-Encoding"
       || negb (BrotliMiddleware._accepts_brotli_encoding request)
       || (len c <? BrotliMiddleware.MIN_LEN_RESPONSE_TO_PROCESS)%nat
    then (Ok response, log)
    else if (len c <=? len (brotli_compress c 5))%nat
    then (Ok response, (log ++ [(c, 5)])%list)
    else match set_content response (brotli_compress c 5) with
         | Ok r1 =>
             (Ok (setitem
                    (setitem
                       (patch_vary_headers cc_delim_split r1 ["Accept-Encoding"])
                       "Content-Length"
                       (str_of_nat (len (brotli_compress c 5))))
                    "Content-Encoding" "br"), (log ++ [(c, 5)])%list)
         | Raise e => (Raise e, (log ++ [(c, 5)])%list)
         end.
Proof.
  intros Hc.
  unfold BrotliMiddleware.process_response, bind at 1.
  rewrite (should_skip_content _ _ _ c Hc).
  destruct (has_header response "Content-Encoding"
            || negb (BrotliMiddleware._accepts_brotli_encoding request)
            || (len c <? BrotliMiddleware.MIN_LEN_RESPONSE_TO_PROCESS)%nat);
    [reflexivity|].
  unfold bind, lift, BrotliMiddleware.compress, ret. rewrite Hc.
  destruct (len c <=? len (brotli_compress c 5))%nat; [reflexivity|].
  now destruct (set_content response (brotli_compress c 5)).
Qed.

(** The response returned does not depend on the calls made before. *)
Lemma process_response_log_independent (request : HttpRequest)
    (response : HttpResponse) (l1 l2 : BrotliMiddleware.compress_log) :
  fst (process_response request response l1)
  = fst (process_response request response l2).
Proof.
  destruct (content_cases response) as [Hs | [c Hc]].
  - unfold BrotliMiddleware.process_response, bind.
    now rewrite !(should_skip_streaming _ _ _ Hs).
  - rewrite !(process_response_content _ _ _ c Hc).
    destruct (has_header response "Content-Encoding"
              || negb (BrotliMiddleware._accepts_brotli_encoding request)
              || (len c <? BrotliMiddleware.MIN_LEN_RESPONSE_TO_PROCESS)%nat);
      [reflexivity|].
    destruct (len c <=? len (brotli_compress c 5))%nat; [reflexivity|].
    now destruct (set_content response (brotli_compress c 5)).
Qed.

(** X8. [process_response] is idempotent on the response: handed the response
    it returned, it returns that response again.  A response it compressed
    carries [Content-Encoding] and is never compressed twice. *)
Theorem brotli_idempotent (request : HttpRequest) (response out : HttpResponse)
    (log log' log'' : BrotliMiddleware.compress_log) :
  process_response request response log = (Ok out, log') ->
  fst (process_response request out log'') = Ok out /\
  (out <> response -> process_response request out log'' = (Ok out, log'')).
Proof.
  intros Hfirst.
  destruct (process_response_outcomes request response log)
    as (out' & l' & Heq & Hshape).
  rewrite Heq in Hfirst. injection Hfirst as -> ->.
  destruct Hshape as [-> | (c & r1 & Hc & Hset & ->)].
  - split; [|intros Hne; now destruct Hne].
    rewrite (process_response_log_independent request response log'' log).
    now rewrite Heq.
  - assert (process_response request
              (setitem
                 (setitem (patch_vary_headers cc_delim_split r1 ["Accept-Encoding"])
                          "Content-Length"
                          (str_of_nat (len (brotli_compress c 5))))
                 "Content-Encoding" "br") log''
            = (Ok (setitem
                     (setitem
                        (patch_vary_headers cc_delim_split r1 ["Accept-Encoding"])
                        "Content-Length"
                        (str_of_nat (len (brotli_compress c 5))))
                     "Content-Encoding" "br"), log'')) as Hagain.
    { apply brotli_skips_content_encoding.
      - unfold content, set_content in *.
        destruct (body response); [|discriminate].
        injection Hset as <-. simpl. eauto.
      - apply has_header_get_header. rewrite get_header_setitem. eauto. }
    split; [now rewrite Hagain | intros _; exact Hagain].
Qed.

(** X9. [process_response] never changes the status code or the class of the
    response, nor whether it streams, and of its headers it touches none but
    [Vary], [Content-Length] and [Content-Encoding]. *)
Theorem brotli_frame (request : HttpRequest) (response out : HttpResponse)
    (log log' : BrotliMiddleware.compress_log) :
  process_response request response log = (Ok out, log') ->
  status_code out = status_code response /\
  response_class out = response_class response /\
  streaming out = streaming response /\
  same_headers_but ["vary"; "content-length"; "content-encoding"] response out.
Proof.
  intros Hrun.
  destruct (process_response_outcomes request response log)
    as (out' & l' & Heq & Hshape).
  rewrite Heq in Hrun. injection Hrun as -> ->.
  destruct Hshape as [-> | (c & r1 & Hc & Hset & ->)].
  - repeat split.
  - destruct (set_content_ok response c (brotli_compress c 5) Hc)
      as (r1' & Hset' & Hcontent & Hheaders & Hstatus & Hclass).
    assert (r1' = r1) as -> by congruence.
    destruct (patch_vary_headers_frame cc_delim_split r1 ["Accept-Encoding"])
      as (Hbody & Hstatus' & Hclass' & Hframe).
    split; [|split; [|split]].
    + rewrite !setitem_status_code. congruence.
    + unfold setitem, set_headers. simpl. congruence.
    + unfold streaming, content in *. rewrite !setitem_body, Hbody.
      destruct (body r1); [|discriminate]. now destruct (body response).
    + intros header Hne.
      rewrite !get_header_setitem_ne.
      * rewrite Hframe.
        -- unfold get_header. now rewrite Hheaders.
        -- intros Hin. apply Hne. apply list_elem_of_In in Hin.
           apply list_elem_of_In. simpl in *. tauto.
      * intros Heq'. apply Hne. rewrite <- Heq'. apply list_elem_of_In.
        simpl. tauto.
      * intros Heq'. apply Hne. rewrite <- Heq'. apply list_elem_of_In.
        simpl. tauto.
Qed.

End BrotliMiddleware_further.

(** *** Which [Accept-Encoding] headers are accepted *)

Lemma string_append_assoc (a b c : string) : (a +:+ b) +:+ c = a +:+ b +:+ c.
Proof. induction a as [|x a IH]; simpl; [reflexivity | now rewrite IH]. Qed.

Lemma first_char_is_append (P : ascii -> bool) (a b : string) :
  first_char_is P (a +:+ b)
  = match a with EmptyString => first_char_is P b | String _ _ => first_char_is P a end.
Proof. now destruct a. Qed.

Lemma last_char_is_append (P : ascii -> bool) (a b : string) :
  last_char_is P (a +:+ b)
  = match b with EmptyString => last_char_is P a | String _ _ => last_char_is P b end.
Proof.
  induction a as [|c a IH].
  - simpl. now destruct b.
  - change (String c a +:+ b) with (String c (a +:+ b)).
    destruct b as [|d b].
    + clear IH. assert (a +:+ "" = a) as ->; [|reflexivity].
      induction a as [|x a IHa]; simpl; [reflexivity | now rewrite IHa].
    + simpl in *. destruct a as [|x a]; simpl in *; [reflexivity | exact IH].
Qed.

(** A string all of whose characters satisfy [Q] neither starts nor ends with
    a character that satisfies [P], when [Q] excludes [P]. *)
Lemma all_chars_ends (P Q : ascii -> bool) (s : string) :
  (forall c, Q c = true -> P c = false) ->
  all_chars Q s = true ->
  first_char_is P s = false /\ last_char_is P s = false.
Proof.
  intros Hexcl. induction s as [|c s IH]; simpl; [auto|].
  intros H. apply andb_true_iff in H as [Hc Hs].
  split; [now apply Hexcl|].
  destruct s; [now apply Hexcl | now apply IH].
Qed.

Lemma last_char_is_excluded (P Q : ascii -> bool) (s : string) :
  (forall c, Q c = true -> P c = false) ->
  last_char_is Q s = true -> last_char_is P s = false.
Proof.
  intros Hexcl. induction s as [|c s IH]; simpl; [discriminate|].
  destruct s; [apply Hexcl | exact IH].
Qed.

Lemma isspace_not_word (c : ascii) :
  isspace c = true -> BrotliMiddleware.is_word_char c = false.
Proof.
  destruct c as [[] [] [] [] [] [] [] []]; vm_compute; congruence.
Qed.

Lemma comma_not_word (c : ascii) :
  Ascii.eqb "," c = true -> BrotliMiddleware.is_word_char c = false.
Proof.
  intros H. apply Ascii.eqb_eq in H. now subst c.
Qed.

(** Where a field of [s.split(sep)] stands in [s]: the first one at the
    start, a later one right after a separator, and each one at the end of
    [s] or right before a separator. *)
Lemma split_field_context (sep : ascii) (s : string) (i : nat) (field : string) :
  split sep s !! i = Some field ->
  exists pre post,
    s = pre +:+ field +:+ post /\
    match i with
    | O => pre = ""
    | S _ => last_char_is (Ascii.eqb sep) pre = true
    end /\
    (post = "" \/ first_char_is (Ascii.eqb sep) post = true).
Proof.
  revert i field. induction s as [|c s IH]; intros i field Hi.
  - destruct i as [|i]; simpl in Hi; [|discriminate].
    injection Hi as <-. exists "", "". auto.
  - simpl in Hi. destruct (Ascii.eqb_spec c sep) as [-> | Hne].
    + destruct i as [|i]; simpl in Hi.
      * injection Hi as <-. exists "", (String sep s).
        split; [reflexivity|]. split; [reflexivity|].
        right. simpl. apply Ascii.eqb_refl.
      * destruct (IH i field Hi) as (pre & post & -> & Hpre & Hpost).
        exists (String sep pre), post.
        split; [reflexivity|]. split; [|exact Hpost].
        destruct i; [subst pre; simpl; apply Ascii.eqb_refl|].
        simpl. destruct pre; [discriminate | exact Hpre].
    + destruct (split sep s) as [|f fs] eqn:Hsplit;
        [now apply split_nonempty in Hsplit|].
      destruct i as [|i]; simpl in Hi.
      * injection Hi as <-.
        destruct (IH 0 f eq_refl) as (pre & post & -> & -> & Hpost).
        exists "", post. auto.
      * destruct (IH (S i) field Hi) as (pre & post & -> & Hpre & Hpost).
        exists (String c pre), post.
        split; [reflexivity|]. split; [|exact Hpost].
        simpl. destruct pre; [discriminate | exact Hpre].
Qed.

(** X10. An [Accept-Encoding] header is accepted whenever one of its
    comma-separated entries, once stripped, is [br], alone or followed by
    parameters (anything that does not start with a word character, such as
    [;q=0]); the parameters are not looked at.  A request without the header
    is not accepted. *)
Theorem accepts_brotli_listed (request : HttpRequest) :
  (META request !! "HTTP_ACCEPT_ENCODING" = None ->
   BrotliMiddleware._accepts_brotli_encoding request = false)
  /\ (forall header i entry params,
      META request !! "HTTP_ACCEPT_ENCODING" = Some header ->
      split "," header !! i = Some entry ->
      strip entry = "br" +:+ params ->
      first_char_is BrotliMiddleware.is_word_char params = false ->
      BrotliMiddleware._accepts_brotli_encoding request = true).
Proof.
  split.
  - intros Hnone. unfold BrotliMiddleware._accepts_brotli_encoding.
    now rewrite Hnone.
  - intros header i entry params Hheader Hentry Hstrip Hparams.
    apply accepts_brotli_whole_word. rewrite Hheader. simpl.
    destruct (split_field_context "," header i entry Hentry)
      as (pre & post & -> & Hpre & Hpost).
    destruct (strip_spec entry) as (l & r & Hfield & Hl & Hr & _).
    rewrite Hstrip in Hfield.
    destruct (all_chars_ends BrotliMiddleware.is_word_char isspace l
                isspace_not_word Hl) as [_ Hl_last].
    destruct (all_chars_ends BrotliMiddleware.is_word_char isspace r
                isspace_not_word Hr) as [Hr_first _].
    exists (pre +:+ l), (params +:+ r +:+ post).
    split; [|split].
    + rewrite Hfield, !string_append_assoc. reflexivity.
    + rewrite last_char_is_append. destruct l; [|exact Hl_last].
      destruct i.
      * now subst pre.
      * exact (last_char_is_excluded _ _ _ comma_not_word Hpre).
    + rewrite first_char_is_append. destruct params; [|exact Hparams].
      rewrite first_char_is_append. destruct r; [|exact Hr_first].
      destruct Hpost as [-> | Hpost]; [reflexivity|].
      destruct post; [reflexivity|]. simpl in *. now apply comma_not_word.
Qed.

Lemma accepts_brotli_listed_witness :
  BrotliMiddleware._accepts_brotli_encoding refusing_request = true.
Proof.
  apply (proj2 (accepts_brotli_listed refusing_request)
           "gzip, br;q=0" 1 " br;q=0" ";q=0"); reflexivity.
Defined.

Lemma brotli_idempotent_witness :
  BrotliMiddleware.process_response run_length split_commas
    docs_slash_request compressed_long_page []
  = (Ok compressed_long_page, []).
Proof.
  apply (brotli_idempotent run_length split_commas docs_slash_request
           long_page compressed_long_page [] [(replicate_char 300 "a", 5)] []).
  - vm_compute. reflexivity.
  - vm_compute. discriminate.
Defined.

Lemma brotli_frame_witness :
  status_code compressed_long_page = status_code long_page /\
  get_header compressed_long_page "Content-Type"
  = get_header long_page "Content-Type".
Proof.
  destruct (brotli_frame run_length split_commas docs_slash_request
              long_page compressed_long_page [] [(replicate_char 300 "a", 5)])
    as (Hstatus & _ & _ & Hheaders).
  - vm_compute. reflexivity.
  - split; [exact Hstatus|]. apply Hheaders.
    intros Hin. apply list_elem_of_In in Hin. simpl in Hin.
    destruct Hin as [H | [H | [H | []]]]; discriminate.
Defined.

(** ** More on GZipMiddleware *)

Section GZipMiddleware_further.

Variable super_process_response : HttpRequest -> HttpResponse -> HttpResponse.

Local Abbreviation process_response :=
  (GZipMiddleware.process_response super_process_response).

(** X11. The subclass changes nothing of the parent's response but the
    [ETag] header: the body, the status, the class and every other header are
    the parent's.  When the response given has no [ETag], or the parent's
    response has none, the parent's response is returned as it is: the
    subclass never adds an [ETag].  These two cases are not the only ones:
    the response returned is the parent's exactly when the response given has
    no [ETag], or the parent's response has none, or the parent's response
    already stores the original value under the header name [etag]. *)
Theorem gzip_differs_in_etag_only (request : HttpRequest) (response : HttpResponse) :
  body (process_response request response)
  = body (super_process_response request response) /\
  status_code (process_response request response)
  = status_code (super_process_response request response) /\
  response_class (process_response request response)
  = response_class (super_process_response request response) /\
  same_headers_but ["etag"] (super_process_response request response)
    (process_response request response) /\
  (get_header response "ETag" = None \/
   get_header (super_process_response request response) "ETag" = None ->
   process_response request response = super_process_response request response) /\
  (process_response request response = super_process_response request response
   <->
   get_header response "ETag" = None \/
   get_header (super_process_response request response) "ETag" = None \/
   exists etag,
     get_header response "ETag" = Some etag /\
     _headers (super_process_response request response) !! "etag"
     = Some ("etag", etag)).
Proof.
  destruct (gzip_frame super_process_response request response)
    as (Hbody & Hstatus & Hheaders).
  split; [exact Hbody|]. split; [exact Hstatus|].
  split; [|split; [|split]].
  - unfold GZipMiddleware.process_response.
    destruct (get_header response "etag"); [|reflexivity].
    now destruct (has_header (super_process_response request response) "etag").
  - intros header Hne. apply Hheaders. intros Heq. apply Hne.
    rewrite Heq. apply list_elem_of_here.
  - unfold GZipMiddleware.process_response.
    change (get_header response "ETag") with (get_header response "etag").
    intros [-> | Hnone]; [reflexivity|].
    destruct (get_header response "etag"); [|reflexivity].
    destruct (has_header (super_process_response request response) "etag") eqn:E;
      [|reflexivity].
    apply has_header_get_header in E.
    change (get_header (super_process_response request response) "etag")
      with (get_header (super_process_response request response) "ETag") in E.
    rewrite Hnone in E. now destruct E.
  - unfold GZipMiddleware.process_response.
    change (get_header response "ETag") with (get_header response "etag").
    change (get_header (super_process_response request response) "ETag")
      with (get_header (super_process_response request response) "etag").
    set (response_out := super_process_response request response).
    split.
    + destruct (get_header response "etag") as [etag|]; [|now left].
      destruct (has_header response_out "etag") eqn:E.
      * intros Heq. right. right. exists etag. split; [reflexivity|].
        apply (f_equal _headers) in Heq. simpl in Heq.
        rewrite <- Heq. apply lookup_insert_eq.
      * intros _. right. left.
        unfold has_header in E. apply bool_decide_eq_false in E.
        unfold get_header.
        destruct (_headers response_out !! lower "etag"); [|reflexivity].
        exfalso. apply E. eauto.
    + intros [-> | [Hnone | (etag & -> & Hstored)]]; [reflexivity| |].
      * destruct (get_header response "etag"); [|reflexivity].
        destruct (has_header response_out "etag") eqn:E; [|reflexivity].
        apply has_header_get_header in E. rewrite Hnone in E. now destruct E.
      * destruct (has_header response_out "etag"); [|reflexivity].
        unfold setitem, set_headers.
        change (lower "etag") with "etag".
        rewrite (insert_id _ _ _ Hstored).
        now destruct response_out.
Qed.

End GZipMiddleware_further.

(** ** RestrictedWhiteNoiseMiddleware *)

Section RestrictedWhiteNoiseMiddleware_properties.

Variable conf : settings.t.
Variable is_untrusted : HttpRequest -> Py bool.
Variable super_process_request : HttpRequest -> option HttpResponse.

Local Abbreviation whitenoise_process_request :=
  (RestrictedWhiteNoiseMiddleware.process_request
     conf is_untrusted super_process_request).
Local Abbreviation endpoints_process_request :=
  (RestrictedEndpointsMiddleware.process_request conf is_untrusted).

(** X12. [RestrictedWhiteNoiseMiddleware.process_request] returns [None]
    without asking the parent class when restrictions by host are enabled and
    the host is untrusted; with restrictions disabled (whatever [is_untrusted]
    would do) or a trusted host, it returns what the parent class returns for
    the request.  It agrees with [RestrictedEndpointsMiddleware]: the parent
    class is left out exactly for the requests whose [urlconf] that
    middleware sets. *)
Theorem restricted_whitenoise_process_request (request : HttpRequest)
    (calls : RestrictedWhiteNoiseMiddleware.super_calls) :
  (settings.ENABLE_RESTRICTIONS_BY_HOST conf = true ->
   is_untrusted request = Ok true ->
   whitenoise_process_request request calls = (Ok None, calls))
  /\ (settings.ENABLE_RESTRICTIONS_BY_HOST conf = false \/
      is_untrusted request = Ok false ->
      whitenoise_process_request request calls
      = (Ok (super_process_request request), (calls ++ [request])%list))
  /\ (forall out,
      whitenoise_process_request request calls = (Ok out, calls) ->
      out = None /\
      endpoints_process_request request
      = (Ok None, set_urlconf request (Some "kuma.urls_untrusted")))
  /\ (forall out,
      whitenoise_process_request request calls
      = (Ok out, (calls ++ [request])%list) ->
      endpoints_process_request request = (Ok None, request)).
Proof.
  assert (forall l : RestrictedWhiteNoiseMiddleware.super_calls,
            (l ++ [request])%list <> l) as Hgrows.
  { intros l Heq. apply (f_equal length) in Heq.
    rewrite length_app in Heq. simpl in Heq. lia. }
  unfold RestrictedWhiteNoiseMiddleware.process_request,
    RestrictedEndpointsMiddleware.process_request,
    RestrictedWhiteNoiseMiddleware.call_super,
    bind, get_state, pand, ret, lift, modify.
  destruct (settings.ENABLE_RESTRICTIONS_BY_HOST conf);
    [destruct (is_untrusted request) as [[]|e]|]; simpl;
    (split; [|split; [|split]]);
    try (intros; congruence);
    try (intros [?|?]; congruence);
    intros out Heq; inversion Heq; subst; auto;
    match goal with
    | H : (_ ++ _)%list = _ |- _ => now apply Hgrows in H
    | H : _ = (_ ++ _)%list |- _ => symmetry in H; now apply Hgrows in H
    end.
Qed.

End RestrictedWhiteNoiseMiddleware_properties.

Lemma restricted_whitenoise_process_request_witness :
  RestrictedWhiteNoiseMiddleware.process_request mdn_settings untrusted_host
    serve_static attachment_request []
  = (Ok None, []) /\
  RestrictedWhiteNoiseMiddleware.process_request mdn_settings untrusted_host
    serve_static docs_slash_request []
  = (Ok None, [docs_slash_request]).
Proof.
  split.
  - apply (restricted_whitenoise_process_request mdn_settings untrusted_host
             serve_static attachment_request []); reflexivity.
  - apply (restricted_whitenoise_process_request mdn_settings untrusted_host
             serve_static docs_slash_request []). right. reflexivity.
Defined.

(** ** More on LocaleURLMiddleware *)

Section LocaleURLMiddleware_further.

Variable conf : settings.t.
Variable iri_to_uri : string -> string.
Variable urlparse_scheme : string -> string.
Variable Prefixer_init : HttpRequest -> LocaleURLMiddleware.Prefixer.
Variable Prefixer_fix :
  HttpRequest -> LocaleURLMiddleware.Prefixer -> string -> string.
Variable split_path : string -> string * string.
Variable urlparams : string -> gmap string qvalue -> Py string.
Variable quote_utf8 : string -> string.

Local Abbreviation process_request :=
  (LocaleURLMiddleware.process_request
     conf iri_to_uri urlparse_scheme Prefixer_init Prefixer_fix split_path
     urlparams quote_utf8).

(** A fresh redirect has no [Vary] header. *)
Lemma redirect_no_vary (url : string) :
  get_header (temporary_redirect iri_to_uri url) "Vary" = None.
Proof.
  unfold temporary_redirect.
  rewrite get_header_setitem_ne by (vm_compute; discriminate).
  reflexivity.
Qed.

(** X13. When [lang] names no configured language and the path already has
    its locale prefix, [process_request] returns no response; it sets
    [path_info] to a slash followed by the shortened path, and it sets
    [request.LANGUAGE_CODE] and the active translation to one and the same
    language: the locale of the prefixer, or [settings.LANGUAGE_CODE] when the
    locale is empty.  That language is not empty unless
    [settings.LANGUAGE_CODE] is.  Nothing else of the request changes. *)
Theorem locale_pass_through (w : LocaleURLMiddleware.World) :
  LocaleURLMiddleware.lang_in_LANGUAGES conf
    (QueryDict_get (GET (LocaleURLMiddleware.request w)) "lang") = false ->
  prefixed_path Prefixer_init Prefixer_fix (LocaleURLMiddleware.request w)
  = path (LocaleURLMiddleware.request w) ->
  fst (process_request w) = Ok None /\
  path_info (LocaleURLMiddleware.request (snd (process_request w)))
  = "/" +:+ LocaleURLMiddleware.shortened_path
              (Prefixer_init (LocaleURLMiddleware.request w)) /\
  LANGUAGE_CODE (LocaleURLMiddleware.request (snd (process_request w)))
  = LocaleURLMiddleware.active_translation (snd (process_request w)) /\
  LocaleURLMiddleware.active_translation (snd (process_request w))
  = Some (if str_truthy (LocaleURLMiddleware.locale
                           (Prefixer_init (LocaleURLMiddleware.request w)))
          then LocaleURLMiddleware.locale
                 (Prefixer_init (LocaleURLMiddleware.request w))
          else settings.LANGUAGE_CODE conf) /\
  (settings.LANGUAGE_CODE conf <> "" ->
   LocaleURLMiddleware.active_translation (snd (process_request w)) <> Some "") /\
  path (LocaleURLMiddleware.request (snd (process_request w)))
  = path (LocaleURLMiddleware.request w) /\
  GET (LocaleURLMiddleware.request (snd (process_request w)))
  = GET (LocaleURLMiddleware.request w) /\
  META (LocaleURLMiddleware.request (snd (process_request w)))
  = META (LocaleURLMiddleware.request w) /\
  urlconf (LocaleURLMiddleware.request (snd (process_request w)))
  = urlconf (LocaleURLMiddleware.request w).
Proof.
  intros Hlang Hpath.
  unfold LocaleURLMiddleware.process_request, bind, get_state,
    LocaleURLMiddleware.set_url_prefixer, modify.
  simpl. rewrite Hlang.
  unfold LocaleURLMiddleware.locale_prefix.
  unfold prefixed_path in Hpath. rewrite Hpath, String.eqb_refl. simpl.
  repeat split.
  unfold LocaleURLMiddleware.str_or.
  intros Hdefault.
  destruct (LocaleURLMiddleware.locale
              (Prefixer_init (LocaleURLMiddleware.request w))) eqn:Hlocale;
    simpl; congruence.
Qed.

(** X14. When [lang] names no configured language and the path lacks its
    locale prefix, [process_request] answers with a temporary redirect (status
    302) and changes neither the request nor the active translation.  The
    redirect carries [Vary: Accept-Language] when the locale found in the
    target differs from the locale of the prefixer, and no [Vary] header at
    all otherwise.  The one other outcome is the [DisallowedRedirect] of the
    redirect class, for a target with a scheme that is not allowed; the request
    and the active translation are unchanged then as well. *)
Theorem locale_prefix_redirect_vary (w : LocaleURLMiddleware.World) :
  LocaleURLMiddleware.lang_in_LANGUAGES conf
    (QueryDict_get (GET (LocaleURLMiddleware.request w)) "lang") = false ->
  prefixed_path Prefixer_init Prefixer_fix (LocaleURLMiddleware.request w)
  <> path (LocaleURLMiddleware.request w) ->
  (redirect_allowed urlparse_scheme
     (prefix_redirect_target Prefixer_init Prefixer_fix quote_utf8
        (LocaleURLMiddleware.request w)) = true ->
   exists response,
     fst (process_request w) = Ok (Some response) /\
     status_code response = 302 /\
     get_header response "Vary"
     = (if String.eqb
             (LocaleURLMiddleware.locale
                (Prefixer_init (LocaleURLMiddleware.request w)))
             (fst (split_path
                     (prefix_redirect_target Prefixer_init Prefixer_fix quote_utf8
                        (LocaleURLMiddleware.request w))))
        then None else Some "Accept-Language") /\
     LocaleURLMiddleware.request (snd (process_request w))
     = LocaleURLMiddleware.request w /\
     LocaleURLMiddleware.active_translation (snd (process_request w))
     = LocaleURLMiddleware.active_translation w) /\
  (redirect_allowed urlparse_scheme
     (prefix_redirect_target Prefixer_init Prefixer_fix quote_utf8
        (LocaleURLMiddleware.request w)) = false ->
   fst (process_request w) = Raise DisallowedRedirect) /\
  LocaleURLMiddleware.request (snd (process_request w))
  = LocaleURLMiddleware.request w /\
  LocaleURLMiddleware.active_translation (snd (process_request w))
  = LocaleURLMiddleware.active_translation w.
Proof.
  intros Hlang Hpath.
  assert (process_request w
          = bind (lift (HttpResponseRedirect iri_to_uri urlparse_scheme
                          (prefix_redirect_target Prefixer_init Prefixer_fix
                             quote_utf8 (LocaleURLMiddleware.request w))))
              (fun response =>
                 ret (Some
                   (if negb (String.eqb
                               (LocaleURLMiddleware.locale
                                  (Prefixer_init (LocaleURLMiddleware.request w)))
                               (fst (split_path
                                       (prefix_redirect_target Prefixer_init
                                          Prefixer_fix quote_utf8
                                          (LocaleURLMiddleware.request w)))))
                    then setitem response "Vary" "Accept-Language"
                    else response)))
              (LocaleURLMiddleware.mkWorld (LocaleURLMiddleware.request w)
                 (Some (Prefixer_init (LocaleURLMiddleware.request w)))
                 (LocaleURLMiddleware.active_translation w))) as Hrun.
  { unfold LocaleURLMiddleware.process_request, bind at 1, get_state.
    unfold bind at 1, LocaleURLMiddleware.set_url_prefixer, modify.
    rewrite Hlang. unfold LocaleURLMiddleware.locale_prefix.
    unfold prefixed_path in Hpath. apply String.eqb_neq in Hpath.
    rewrite Hpath. reflexivity. }
  rewrite Hrun. unfold bind, lift, ret.
  destruct (redirect_constructor iri_to_uri urlparse_scheme
              (prefix_redirect_target Prefixer_init Prefixer_fix quote_utf8
                 (LocaleURLMiddleware.request w))) as [Hallowed Hrefused].
  destruct (redirect_allowed urlparse_scheme _).
  - rewrite (Hallowed eq_refl). simpl.
    split; [|split; [discriminate | split; reflexivity]].
    intros _. eexists. split; [reflexivity|].
    destruct (String.eqb _ _); simpl; repeat split;
      first [apply get_header_setitem | apply redirect_no_vary].
  - rewrite (Hrefused eq_refl). simpl.
    split; [discriminate|]. repeat split.
Qed.

(** X15. [process_request] always leaves a prefixer in the thread-local slot,
    with a blank locale after the [lang] redirect (the object stored is the
    one whose locale is blanked); [process_response] and [process_exception]
    always empty the slot and touch nothing else, the one returning the
    response it was given and the other [None]. *)
Theorem locale_prefixer_lifecycle (w : LocaleURLMiddleware.World)
    (response : HttpResponse) :
  is_Some (LocaleURLMiddleware.url_prefixer (snd (process_request w)))
  /\ (LocaleURLMiddleware.lang_in_LANGUAGES conf
        (QueryDict_get (GET (LocaleURLMiddleware.request w)) "lang") = true ->
      LocaleURLMiddleware.url_prefixer (snd (process_request w))
      = Some (blank_prefixer Prefixer_init (LocaleURLMiddleware.request w)))
  /\ LocaleURLMiddleware.process_response response (snd (process_request w))
     = (Ok response,
        LocaleURLMiddleware.mkWorld
          (LocaleURLMiddleware.request (snd (process_request w))) None
          (LocaleURLMiddleware.active_translation (snd (process_request w))))
  /\ LocaleURLMiddleware.process_exception (snd (process_request w))
     = (Ok None,
        LocaleURLMiddleware.mkWorld
          (LocaleURLMiddleware.request (snd (process_request w))) None
          (LocaleURLMiddleware.active_translation (snd (process_request w)))).
Proof.
  split; [|split; [|split; reflexivity]].
  - unfold LocaleURLMiddleware.process_request, bind at 1, get_state.
    unfold bind at 1, LocaleURLMiddleware.set_url_prefixer, modify.
    destruct (LocaleURLMiddleware.lang_in_LANGUAGES conf _).
    + unfold LocaleURLMiddleware.redirect_without_lang, bind, lift, ret,
        LocaleURLMiddleware.set_url_prefixer, modify.
      destruct (urlparams _ _); simpl; [|eauto].
      destruct (HttpResponseRedirect _ _ _); simpl; eauto.
    + unfold LocaleURLMiddleware.locale_prefix.
      destruct (negb (String.eqb _ _)); [|simpl; eauto].
      unfold bind, lift, ret.
      destruct (HttpResponseRedirect _ _ _); simpl; eauto.
  - intros Hlang.
    unfold LocaleURLMiddleware.process_request, bind at 1, get_state.
    unfold bind at 1, LocaleURLMiddleware.set_url_prefixer, modify.
    rewrite Hlang.
    unfold LocaleURLMiddleware.redirect_without_lang, bind, lift, ret,
      LocaleURLMiddleware.set_url_prefixer, modify.
    destruct (urlparams _ _); simpl; [|reflexivity].
    destruct (HttpResponseRedirect _ _ _); reflexivity.
Qed.

End LocaleURLMiddleware_further.

Lemma locale_pass_through_witness :
  fst (LocaleURLMiddleware.process_request mdn_settings encode_spaces scheme_of
         simple_prefixer simple_fix simple_split_path simple_urlparams
         encode_spaces
         (LocaleURLMiddleware.mkWorld localized_request None None))
  = Ok None /\
  LocaleURLMiddleware.active_translation
    (snd (LocaleURLMiddleware.process_request mdn_settings encode_spaces scheme_of
            simple_prefixer simple_fix simple_split_path simple_urlparams
            encode_spaces
            (LocaleURLMiddleware.mkWorld localized_request None None)))
  = Some "en-US".
Proof.
  destruct (locale_pass_through mdn_settings encode_spaces scheme_of simple_prefixer
              simple_fix simple_split_path simple_urlparams encode_spaces
              (LocaleURLMiddleware.mkWorld localized_request None None))
    as (Hnone & _ & _ & Hlanguage & _).
  - vm_compute. reflexivity.
  - vm_compute. reflexivity.
  - split; [exact Hnone | exact Hlanguage].
Defined.

Lemma locale_prefix_redirect_vary_witness :
  exists response,
    fst (LocaleURLMiddleware.process_request mdn_settings encode_spaces scheme_of
           simple_prefixer simple_fix simple_split_path simple_urlparams
           encode_spaces
           (LocaleURLMiddleware.mkWorld unlocalized_request None None))
    = Ok (Some response) /\
    status_code response = 302 /\
    get_header response "Vary" = Some "Accept-Language".
Proof.
  destruct (locale_prefix_redirect_vary mdn_settings encode_spaces scheme_of
              simple_prefixer simple_fix simple_split_path simple_urlparams
              encode_spaces
              (LocaleURLMiddleware.mkWorld unlocalized_request None None))
    as (Hallowed & _).
  - vm_compute. reflexivity.
  - vm_compute. discriminate.
  - destruct Hallowed as (response & Hresponse & Hstatus & Hvary & _);
      [vm_compute; reflexivity|].
    exists response. split; [exact Hresponse|]. split; [exact Hstatus|].
    exact Hvary.
Defined.
